(** * Asteroid (a Comet browser clone): the Tavily search client and its tabs

    A shallow embedding of [comet.py]: the function [tavily_search], the
    normalization it performs on the provider's JSON answer, and the three
    tabs that render the normalized answer.  Python values that come out of
    [response.json()] are modelled by the type [json]; the Streamlit calls
    and the HTTP request are recorded as a trace of [event]s; Python
    exceptions are explicit. *)

From Stdlib Require Import ZArith NArith List Ascii String Bool Lia.
From stdpp Require Import gmap strings list fin_maps.

Local Open Scope N_scope.

(** ** Python strings

    A Python [str] is a sequence of Unicode code points. *)

Abbreviation str := (list N).

(** Decoding of the UTF-8 bytes of a source literal into code points, so
    that the literals of [comet.py] can be written as they are. *)
Fixpoint utf8_decode (bs : list N) : str :=
  match bs with
  | [] => []
  | b0 :: r0 =>
    if b0 <? 128 then b0 :: utf8_decode r0
    else if b0 <? 224 then
      match r0 with
      | b1 :: r1 => ((b0 mod 32) * 64 + b1 mod 64) :: utf8_decode r1
      | _ => []
      end
    else if b0 <? 240 then
      match r0 with
      | b1 :: b2 :: r2 =>
          (((b0 mod 16) * 64 + b1 mod 64) * 64 + b2 mod 64) :: utf8_decode r2
      | _ => []
      end
    else
      match r0 with
      | b1 :: b2 :: b3 :: r3 =>
          ((((b0 mod 8) * 64 + b1 mod 64) * 64 + b2 mod 64) * 64 + b3 mod 64)
            :: utf8_decode r3
      | _ => []
      end
  end.

Definition lit (s : string) : str :=
  utf8_decode (map N_of_ascii (list_ascii_of_string s)).

(** The double quote and the newline, which a literal cannot hold. *)
Definition dquote : str := [34].
Definition nl : str := [10].

(** [str.isspace] on one code point: the characters that [str.strip()]
    without argument removes. *)
Definition isspace (c : N) : bool :=
  ((9 <=? c) && (c <=? 13)) || ((28 <=? c) && (c <=? 32))
  || (c =? 133) || (c =? 160) || (c =? 5760)
  || ((8192 <=? c) && (c <=? 8202))
  || (c =? 8232) || (c =? 8233) || (c =? 8239) || (c =? 8287) || (c =? 12288).

Fixpoint lstrip (s : str) : str :=
  match s with
  | c :: r => if isspace c then lstrip r else s
  | [] => []
  end.

Definition rstrip (s : str) : str := rev (lstrip (rev s)).

(** [s.strip()] *)
Definition strip (s : str) : str := rstrip (lstrip s).

(** A string that does not start, or does not end, with whitespace. *)
Definition starts_clean (s : str) : Prop :=
  match s with
  | c :: _ => isspace c = false
  | [] => True
  end.

Definition ends_clean (s : str) : Prop := starts_clean (rev s).

(** [t] is [s] with its leading and trailing whitespace removed. *)
Definition trimmed_of (s t : str) : Prop :=
  (exists pre post,
      s = pre ++ t ++ post
      /\ forallb isspace pre = true /\ forallb isspace post = true)
  /\ starts_clean t /\ ends_clean t.

(** ** JSON values

    What [json.loads] builds: [None], [bool], [int], [float], [str], [list]
    and [dict] with string keys. *)

(** An IEEE 754 binary64 number by its three fields. *)
Record float64 := Float64 { f_sign : bool; f_exponent : N; f_fraction : N }.

Definition float_is_zero (f : float64) : bool :=
  (f_exponent f =? 0) && (f_fraction f =? 0).

#[warnings="-register-all"]
Inductive json : Type :=
| JNull
| JBool (b : bool)
| JInt (z : Z)
| JFloat (f : float64)
| JStr (s : str)
| JList (l : list json)
| JDict (d : gmap str json).

Abbreviation dict := (gmap str json).

(** [bool(v)] *)
Definition truthy (v : json) : bool :=
  match v with
  | JNull => false
  | JBool b => b
  | JInt z => negb (z =? 0)%Z
  | JFloat f => negb (float_is_zero f)
  | JStr s => match s with [] => false | _ => true end
  | JList l => match l with [] => false | _ => true end
  | JDict d => negb (Nat.eqb (size d) 0)
  end.

(** [isinstance(v, str)] and [isinstance(v, list)] *)
Definition is_str (v : json) : bool :=
  match v with JStr _ => true | _ => false end.

Definition is_list (v : json) : bool :=
  match v with JList _ => true | _ => false end.

(** [d.get(k)] and [d.get(k, default)] *)
Definition get (d : dict) (k : str) : json :=
  match d !! k with Some v => v | None => JNull end.

Definition get_default (d : dict) (k : str) (dflt : json) : json :=
  match d !! k with Some v => v | None => dflt end.

(** ** The network, as [requests] shows it

    A response carries its status code and what [response.json()] makes of
    its body: [None] when the body is not JSON. *)

Record Response := mkResponse { status_code : Z; body_json : option json }.

(** The exceptions of [requests.exceptions], all of them subclasses of
    [RequestException]. *)
Inductive request_exception :=
| ConnectionError (detail : str)
| Timeout (detail : str)
| HTTPError (response : Response)
| JSONDecodeError (response : Response).

(** What [requests.post(url, json=..., timeout=...)] does. *)
Inductive post_result :=
| PostRaises (e : request_exception)
| PostReturns (r : Response).

Definition Network := str -> dict -> Z -> post_result.

(** ** Exceptions, effects and the monad of the script *)

Inductive exn :=
| RequestException (e : request_exception)
| AttributeError
| TypeError
| ValueError
| KeyError
| IndexError
| MediaFileStorageError.

(** An f-string: literal text and interpolated values. *)
Inductive frag :=
| Lit (s : str)
| Val (v : json)
| Exc (e : request_exception).

Abbreviation fstring := (list frag).

(** The text of an f-string, given how values are printed. *)
Definition frag_text (show : frag -> str) (f : frag) : str :=
  match f with
  | Lit s => s
  | _ => show f
  end.

Definition fstring_text (show : frag -> str) (f : fstring) : str :=
  concat (map (frag_text show) f).

Inductive event :=
| HttpPost (url : str) (payload : dict) (timeout : Z)
| StError (msg : fstring)
| StInfo (msg : str)
| StWarning (msg : str)
| StSpinner (msg : str)
| StMarkdown (body : fstring) (unsafe_allow_html : bool)
| StWrite (v : json)
| StImage (image : json) (use_container_width : bool)
| StColumns (n : nat)
| InColumn (i : nat) (e : event).

Inductive outcome (A : Type) :=
| Return (a : A)
| Raise (e : exn).

Arguments Return {A} a.
Arguments Raise {A} e.

Definition M (A : Type) : Type := list event * outcome A.

Definition ret {A} (a : A) : M A := ([], Return a).

Definition bind {A B} (m : M A) (k : A -> M B) : M B :=
  match m with
  | (t, Return a) => let (t', r) := k a in (t ++ t', r)
  | (t, Raise e) => (t, Raise e)
  end.

Definition raise {A} (e : exn) : M A := ([], Raise e).

Definition emit (ev : event) : M unit := ([ev], Return tt).

(** [try: m except ...: h e], where [h] is [None] on the exceptions that
    the clause does not catch. *)
Definition try_except {A} (m : M A) (h : exn -> option (M A)) : M A :=
  match m with
  | (t, Raise e) =>
      match h e with
      | Some k => let (t', r) := k in (t ++ t', r)
      | None => (t, Raise e)
      end
  | _ => m
  end.

Declare Scope py_scope.
Delimit Scope py_scope with py.

Notation "x <- c ;; k" := (bind c (fun x => k))
  (at level 100, c at next level, right associativity) : py_scope.
Notation "c ;; k" := (bind c (fun _ => k))
  (at level 100, right associativity) : py_scope.

Local Open Scope py_scope.

Definition trace {A} (m : M A) : list event := fst m.
Definition result {A} (m : M A) : outcome A := snd m.

(** [for x in l: body x] and [for i, x in enumerate(l): body i x] *)
Fixpoint for_each {A} (l : list A) (body : A -> M unit) : M unit :=
  match l with
  | [] => ret tt
  | x :: r => body x ;; for_each r body
  end.

Fixpoint for_enumerate {A} (i : nat) (l : list A) (body : nat -> A -> M unit)
  : M unit :=
  match l with
  | [] => ret tt
  | x :: r => body i x ;; for_enumerate (S i) r body
  end.

(** [with col: m] *)
Definition in_column {A} (i : nat) (m : M A) : M A :=
  (map (InColumn i) (fst m), snd m).

Definition st_error (msg : fstring) : M unit := emit (StError msg).
Definition st_info (msg : str) : M unit := emit (StInfo msg).
Definition st_warning (msg : str) : M unit := emit (StWarning msg).
Definition st_markdown (body : fstring) (unsafe_allow_html : bool) : M unit :=
  emit (StMarkdown body unsafe_allow_html).
Definition st_write (v : json) : M unit := emit (StWrite v).

(** Whether [st.image] shows its argument is for Streamlit and the file
    system to say: a string is shown when it is a URL or the path of a
    readable file, and the call raises otherwise.  [image_error v] is the
    exception that [st.image] raises on [v], [None] when it shows it. *)
Definition Images := json -> option exn.

(** [st.image(image, use_container_width=...)]: it has no image to show in
    [None] and raises. *)
Definition st_image (image_error : Images) (image : json)
    (use_container_width : bool) : M unit :=
  match image with
  | JNull => raise AttributeError
  | _ =>
      match image_error image with
      | Some e => raise e
      | None => emit (StImage image use_container_width)
      end
  end.

(** ** Python operations on values *)

(** [v.get(k, dflt)]: only a [dict] has the method. *)
Definition attr_get (v : json) (k : str) (dflt : json) : M json :=
  match v with
  | JDict o => ret (get_default o k dflt)
  | _ => raise AttributeError
  end.

(** [d[k]] on a [dict] *)
Definition getitem (d : dict) (k : str) : M json :=
  match d !! k with
  | Some v => ret v
  | None => raise KeyError
  end.

(** [v[0]]: the keys of a [dict] made from JSON are strings, so [0] is
    never one of them. *)
Definition subscript0 (v : json) : M json :=
  match v with
  | JList (x :: _) => ret x
  | JList [] => raise IndexError
  | JStr (c :: _) => ret (JStr [c])
  | JStr [] => raise IndexError
  | JDict _ => raise KeyError
  | _ => raise TypeError
  end.

(** [v[:n]]: a [dict] refuses the slice as a key (with a [TypeError]
    before Python 3.12, the slice being unhashable). *)
Definition slice_to (v : json) (n : nat) : M json :=
  match v with
  | JStr s => ret (JStr (take n s))
  | JList l => ret (JList (take n l))
  | _ => raise TypeError
  end.

(** [v + s] for a [str] [s] *)
Definition add_str (v : json) (s : str) : M json :=
  match v with
  | JStr t => ret (JStr (t ++ s))
  | _ => raise TypeError
  end.

(** [iter(v)]: a [dict] gives its keys (in the order of [map_to_list]: the
    model keeps no insertion order). *)
Definition py_iter (v : json) : M (list json) :=
  match v with
  | JList l => ret l
  | JStr s => ret (map (fun c => JStr [c]) s)
  | JDict d => ret (map (fun kv => JStr (fst kv)) (map_to_list d))
  | _ => raise TypeError
  end.

(** ** CONFIG *)

Definition TAVILY_URL : str := lit "https://api.tavily.com/search".

(** [os.getenv] gives a [str] or [None]. *)
Definition getenv_value (o : option str) : json :=
  match o with
  | Some s => JStr s
  | None => JNull
  end.

(** ** FUNCTION: [tavily_search] *)

(** The status codes on which [requests] raises [HTTPError]: the client
    and server error codes, 400 to 599, and no other. *)
Definition error_status (status : Z) : bool :=
  ((400 <=? status) && (status <? 600))%Z.

Arguments error_status : simpl never.

(** [response.raise_for_status()] *)
Definition raise_for_status (response : Response) : M unit :=
  if error_status (status_code response)
  then raise (RequestException (HTTPError response))
  else ret tt.

(** [response.json()]: on a body that is not JSON, [requests] (2.27 and
    later) raises its own [JSONDecodeError], a [RequestException]. *)
Definition response_json (response : Response) : M json :=
  match body_json response with
  | Some v => ret v
  | None => raise (RequestException (JSONDecodeError response))
  end.

(** Lines 39 to 52, the "SAFE normalization" of the parsed answer, which
    the code does in place on the [dict]. *)
Definition normalize (data : dict) : dict :=
  let answer := get data (lit "answer") in
  let data :=
    match answer with
    | JStr s => <[lit "answer" := JStr (strip s)]> data
    | _ => <[lit "answer" := JStr []]> data
    end in
  let data :=
    if negb (is_list (get data (lit "results")))
    then <[lit "results" := JList []]> data
    else data in
  let data :=
    if negb (is_list (get data (lit "images")))
    then <[lit "images" := JList []]> data
    else data in
  data.

Definition missing_key_message : fstring :=
  [Lit (lit "❌ TAVILY_API_KEY is missing")].

Definition api_error_message (e : request_exception) : fstring :=
  [Lit (lit "❌ Tavily API Error: "); Exc e].

Definition max_results_default : Z := 5.

Section Client.

(** The module-level [TAVILY_API_KEY = os.getenv("TAVILY_API_KEY")] and
    the network that [requests.post] talks to. *)
Variable TAVILY_API_KEY : option str.
Variable network : Network.

Definition requests_post (url : str) (payload : dict) (timeout : Z)
  : M Response :=
  emit (HttpPost url payload timeout) ;;
  match network url payload timeout with
  | PostRaises e => raise (RequestException e)
  | PostReturns r => ret r
  end.

Definition payload_of (key : json) (query : str) (max_results : Z) : dict :=
  <[lit "api_key" := key]>
    (<[lit "query" := JStr (strip query)]>
       (<[lit "include_answer" := JBool true]>
          (<[lit "include_images" := JBool true]>
             (<[lit "include_raw_content" := JBool false]>
                (<[lit "max_results" := JInt max_results]> ∅))))).

(** [tavily_search(query, max_results=5)]: [None] or the normalized
    [dict]. *)
Definition tavily_search (query : str) (max_results : Z) : M (option dict) :=
  let key := getenv_value TAVILY_API_KEY in
  if negb (truthy key) then
    st_error missing_key_message ;;
    ret None
  else
    let payload := payload_of key query max_results in
    try_except
      (response <- requests_post TAVILY_URL payload 20 ;;
       raise_for_status response ;;
       data <- response_json response ;;
       match data with
       | JDict d => ret (Some (normalize d))
       | _ => raise AttributeError
       end)
      (fun e =>
         match e with
         | RequestException e =>
             Some (st_error (api_error_message e) ;; ret None)
         | _ => None
         end).

End Client.

(** ** RESULTS SECTION: the three tabs *)

Definition spaces (n : nat) : str := repeat 32 n.

(** The answer box of the Results tab (lines 200 to 207). *)
Definition answer_box (answer_text : json) : fstring :=
  [Lit (nl ++ spaces 16 ++ lit "<div class=" ++ dquote ++ lit "answer-box"
          ++ dquote ++ lit ">" ++ nl ++ spaces 20
          ++ lit "<strong>🧠 Answer:</strong><br>");
   Val answer_text;
   Lit (nl ++ spaces 16 ++ lit "</div>" ++ nl ++ spaces 16)].

Definition no_data_info : str :=
  lit "Search for something to see the answer here.".

Definition no_answer_warning : str :=
  lit "No consistent answer found for this query.".

(** [if not data]: [data] is [None] or a [dict]. *)
Definition data_falsy (data : option dict) : bool :=
  match data with
  | None => true
  | Some d => negb (truthy (JDict d))
  end.

(** TAB 1: RESULTS *)
Definition tab1 (data : option dict) : M unit :=
  match data with
  | Some d =>
      if data_falsy data then st_info no_data_info
      else
        let answer_text := get d (lit "answer") in
        answer_text <-
          (if negb (truthy answer_text) && truthy (get d (lit "results"))
           then
             results <- getitem d (lit "results") ;;
             first <- subscript0 results ;;
             attr_get first (lit "content") (JStr [])
           else ret answer_text) ;;
        if truthy answer_text
        then st_markdown (answer_box answer_text) true
        else st_warning no_answer_warning
  | None => st_info no_data_info
  end.

Definition date_format_in : str := lit "%a, %d %b %Y %H:%M:%S %Z".
Definition date_format_out : str := lit "%a, %d %b %Y %I:%M:%S %p %Z".

Definition source_title (title url : json) : fstring :=
  [Lit (lit "**["); Val title; Lit (lit "]("); Val url; Lit (lit ")**")].

Definition source_time (published_date : json) : fstring :=
  [Lit (lit "<span class='source-time'>"); Val published_date;
   Lit (lit "</span>")].

(** Lines 233 and 234: [st.write(content[:350] + "...")]. *)
Definition write_content (content : json) : M unit :=
  if truthy content
  then
    head <- slice_to content 350 ;;
    text <- add_str head (lit "...") ;;
    st_write text
  else ret tt.

Section Sources.

(** [datetime.strptime] and [datetime.strftime], of the standard library:
    [None] stands for the exception they raise on a string that does not
    fit the format. *)
Variable datetime : Type.
Variable strptime : str -> str -> option datetime.
Variable strftime : datetime -> str -> option str.

Definition datetime_strptime (v : json) (format : str) : M datetime :=
  match v with
  | JStr s =>
      match strptime s format with
      | Some date_obj => ret date_obj
      | None => raise ValueError
      end
  | _ => raise TypeError
  end.

Definition datetime_strftime (date_obj : datetime) (format : str) : M json :=
  match strftime date_obj format with
  | Some s => ret (JStr s)
  | None => raise ValueError
  end.

(** Lines 225 and 226, the body of the [try]. *)
Definition reformat_attempt (published_date : json) : M json :=
  date_obj <- datetime_strptime published_date date_format_in ;;
  datetime_strftime date_obj date_format_out.

(** Lines 223 to 228: the bare [except] catches every exception and
    passes. *)
Definition reformat_date (published_date : json) : M json :=
  if truthy published_date then
    try_except (reformat_attempt published_date)
      (fun _ => Some (ret published_date))
  else ret published_date.

(** Lines 231 and 232. *)
Definition show_published_date (published_date : json) : M unit :=
  if truthy published_date
  then st_markdown (source_time published_date) true
  else ret tt.

(** The body of the loop of the Sources tab (lines 219 to 235). *)
Definition render_source (item : json) : M unit :=
  title <- attr_get item (lit "title") (JStr (lit "Untitled")) ;;
  url <- attr_get item (lit "url") (JStr (lit "#")) ;;
  content <- attr_get item (lit "content") (JStr []) ;;
  published_date <- attr_get item (lit "published_date") (JStr []) ;;
  published_date <- reformat_date published_date ;;
  st_markdown (source_title title url) false ;;
  show_published_date published_date ;;
  write_content content ;;
  st_markdown [Lit (lit "---")] false.

(** TAB 2: SOURCES *)
Definition tab2 (data : option dict) : M unit :=
  match data with
  | Some d =>
      if data_falsy data || negb (bool_decide (is_Some (d !! lit "results")))
      then st_info (lit "No sources yet. Start a search first.")
      else
        st_markdown [Lit (lit "## 🌐 Sources")] false ;;
        results <- getitem d (lit "results") ;;
        items <- py_iter results ;;
        for_each items render_source
  | None => st_info (lit "No sources yet. Start a search first.")
  end.

End Sources.

Definition image_source_link (source_url : json) : fstring :=
  [Lit (lit "<a href='"); Val source_url;
   Lit (lit "' target='_blank'>🔗 Source Link</a>")].

Definition image_caption (caption : json) : fstring :=
  [Lit (lit "<div class='img-caption'>"); Val caption; Lit (lit "</div>")].

Section Images.

Variable image_error : Images.

(** The body of the loop of the Images tab (lines 249 to 259), inside its
    column.  [img['source_url']] and [img['caption']] are read after
    [img.get] found them truthy, hence present. *)
Definition render_image (img : json) : M unit :=
  match img with
  | JStr _ => st_image image_error img true
  | JDict o =>
      st_image image_error (get o (lit "url")) true ;;
      (if truthy (get o (lit "source_url"))
       then
         source_url <- getitem o (lit "source_url") ;;
         st_markdown (image_source_link source_url) true
       else ret tt) ;;
      (if truthy (get o (lit "caption"))
       then
         caption <- getitem o (lit "caption") ;;
         st_markdown (image_caption caption) true
       else ret tt)
  | _ => ret tt
  end.

(** TAB 3: IMAGES *)
Definition tab3 (data : option dict) : M unit :=
  match data with
  | Some d =>
      if data_falsy data || negb (truthy (get d (lit "images")))
      then st_info (lit "No images found for this query.")
      else
        st_markdown [Lit (lit "## 🖼️ Related Images")] false ;;
        let images := get_default d (lit "images") (JList []) in
        emit (StColumns 3) ;;
        items <- py_iter images ;;
        for_enumerate 0 items
          (fun i img => in_column (i mod 3) (render_image img))
  | None => st_info (lit "No images found for this query.")
  end.

End Images.

(** ** The page: SEARCH INPUT, then the tabs *)

Section Page.

Variable TAVILY_API_KEY : option str.
Variable network : Network.
Variable datetime : Type.
Variable strptime : str -> str -> option datetime.
Variable strftime : datetime -> str -> option str.
Variable image_error : Images.

(** [search_btn] is whether the button was pressed, [query] the text of
    the input; the call leaves [max_results] to its default. *)
Definition page (search_btn : bool) (query : str) : M unit :=
  data <-
    (if search_btn && truthy (JStr query)
     then
       emit (StSpinner (lit "🔎 Searching Tavily...")) ;;
       tavily_search TAVILY_API_KEY network query max_results_default
     else ret None) ;;
  tab1 data ;;
  tab2 datetime strptime strftime data ;;
  tab3 image_error data.

End Page.

(** ** Vocabulary of the statements *)

(** A 2xx status. *)
Definition success_status (status : Z) : bool :=
  ((200 <=? status) && (status <? 300))%Z.

(** The provider answers the request of [tavily_search] with a response
    that passes [raise_for_status] and whose body parses to [v]. *)
Definition provider_returns (key : option str) (net : Network)
    (query : str) (max_results : Z) (v : json) : Prop :=
  truthy (getenv_value key) = true
  /\ exists r,
      net TAVILY_URL (payload_of (getenv_value key) query max_results) 20%Z
        = PostReturns r
      /\ error_status (status_code r) = false
      /\ body_json r = Some v.

Definition is_post (ev : event) : bool :=
  match ev with
  | HttpPost _ _ _ => true
  | _ => false
  end.

(** The network calls of a trace. *)
Definition posts (t : list event) : list event := filter is_post t.

(** What [normalize] leaves under ["answer"], and under ["results"] and
    ["images"]. *)
Definition normalized_answer (d : dict) : json :=
  match get d (lit "answer") with
  | JStr s => JStr (strip s)
  | _ => JStr []
  end.

Definition normalized_list (d : dict) (k : str) : json :=
  if is_list (get d k) then get d k else JList [].

(** What the Sources tab shows as the date of an item: the outcome of
    lines 222 to 228. *)
Definition shown_date (datetime : Type)
    (strptime : str -> str -> option datetime)
    (strftime : datetime -> str -> option str) (o : dict) : json :=
  let pd := get_default o (lit "published_date") (JStr []) in
  match result (reformat_attempt datetime strptime strftime pd) with
  | Return v => if truthy pd then v else pd
  | Raise _ => pd
  end.

(** ** Concrete inputs *)

(** A network that gives the same response to every request. *)
Definition net_const (status : Z) (body : option json) : Network :=
  fun _ _ _ => PostReturns (mkResponse status body).

(** A network on which every request fails. *)
Definition net_down (e : request_exception) : Network :=
  fun _ _ _ => PostRaises e.

Definition key_demo : option str := Some (lit "tvly-demo").
Definition query_moon : str := lit " moon landing year ".

Definition item_apollo : dict :=
  <[lit "title" := JStr (lit "Apollo 11")]>
    (<[lit "url" := JStr (lit "https://x")]>
       (<[lit "content" := JStr (lit "...")]> ∅)).

Definition image_rich : dict :=
  <[lit "url" := JStr (lit "https://img2")]>
    (<[lit "source_url" := JStr (lit "https://src2")]> ∅).

Definition body_moon : dict :=
  <[lit "answer" := JStr (lit " 1969 ")]>
    (<[lit "results" := JList [JDict item_apollo]]>
       (<[lit "images" := JList [JStr (lit "https://img1"); JDict image_rich]]>
          (<[lit "request_id" := JStr (lit "r-1")]> ∅))).

(** [{"answer": null, "results": "not-a-list"}] *)
Definition body_malformed : dict :=
  <[lit "answer" := JNull]> (<[lit "results" := JStr (lit "not-a-list")]> ∅).

(** [{"results": [{}]}] *)
Definition body_bare_item : dict :=
  <[lit "results" := JList [JDict ∅]]> ∅.

(** [{"answer": "", "results": [{"content": "Neil Armstrong"}]}] *)
Definition data_fallback : dict :=
  <[lit "answer" := JStr []]>
    (<[lit "results" :=
         JList [JDict (<[lit "content" := JStr (lit "Neil Armstrong")]> ∅)]]>
       (<[lit "images" := JList []]> ∅)).


(** A [strptime] that fits no string, and the [strftime] that goes with
    it. *)
Definition strptime_never : str -> str -> option unit := fun _ _ => None.
Definition strftime_unit : unit -> str -> option str := fun _ _ => None.

(** ** Vocabulary of the further statements *)

Definition is_error (ev : event) : bool :=
  match ev with
  | StError _ => true
  | _ => false
  end.

(** The errors reported in a trace. *)
Definition errors (t : list event) : list event := filter is_error t.

(** A property that every event of a run has. *)
Definition keeps {A} (P : event -> bool) (m : M A) : Prop :=
  forallb P (trace m) = true.

Definition not_post (ev : event) : bool := negb (is_post ev).

Definition no_sources_info : str :=
  lit "No sources yet. Start a search first.".

Definition no_images_info : str := lit "No images found for this query.".

(** What the three tabs show when there is no data. *)
Definition placeholders : list event :=
  [StInfo no_data_info; StInfo no_sources_info; StInfo no_images_info].

Definition sources_heading : event :=
  StMarkdown [Lit (lit "## 🌐 Sources")] false.

Definition images_heading : event :=
  StMarkdown [Lit (lit "## 🖼️ Related Images")] false.

Definition rule : event := StMarkdown [Lit (lit "---")] false.

Definition spinner : event := StSpinner (lit "🔎 Searching Tavily...").

(** The title and the url of a title line of the Sources tab; no other
    line of the tab is a markdown of five parts. *)
Definition title_of (ev : event) : option (json * json) :=
  match ev with
  | StMarkdown [Lit _; Val title; Lit _; Val url; Lit _] false =>
      Some (title, url)
  | _ => None
  end.

Definition titles (t : list event) : list (json * json) := omap title_of t.

(** The title and the url under which the Sources tab lists an item. *)
Definition listed_as (o : dict) : json * json :=
  (get_default o (lit "title") (JStr (lit "Untitled")),
   get_default o (lit "url") (JStr (lit "#"))).

(** An item whose content is missing, falsy or a string. *)
Definition content_ok (o : dict) : Prop :=
  is_str (get_default o (lit "content") (JStr [])) = true
  \/ truthy (get_default o (lit "content") (JStr [])) = false.

(** The shape that [normalize] gives: a trimmed string under ["answer"],
    lists under ["results"] and ["images"]. *)
Definition normalized (d : dict) : Prop :=
  (exists s, d !! lit "answer" = Some (JStr s) /\ strip s = s)
  /\ (exists l, d !! lit "results" = Some (JList l))
  /\ (exists l, d !! lit "images" = Some (JList l)).

(** The condition of line 180, [search_btn and query]. *)
Definition searching (search_btn : bool) (query : str) : bool :=
  search_btn && truthy (JStr query).

Definition query_blank : str := lit "   ".

Definition item_numeric_content : dict :=
  <[lit "title" := JStr (lit "Apollo 11")]> (<[lit "content" := JInt 5]> ∅).

(** [st.image] shows [v]: [v] is not [None] and the call does not raise. *)
Definition displays (image_error : Images) (v : json) : bool :=
  match v with
  | JNull => false
  | _ => match image_error v with None => true | Some _ => false end
  end.

(** What the Images tab passes to [st.image] for the entry [img] is
    shown: the entry itself when it is a string, its url when it is an
    object; any other entry passes nothing. *)
Definition displayable (image_error : Images) (img : json) : bool :=
  match img with
  | JStr _ => displays image_error img
  | JDict o => displays image_error (get o (lit "url"))
  | _ => true
  end.

Fixpoint starts_with (prefix s : str) : bool :=
  match prefix, s with
  | [], _ => true
  | p :: prefix', c :: s' => (p =? c) && starts_with prefix' s'
  | _ :: _, [] => false
  end.

(** A machine without image files: [st.image] shows the strings that are
    http or https URLs and raises on every other argument. *)
Definition images_no_files : Images :=
  fun v =>
    match v with
    | JStr s =>
        if starts_with (lit "http://") s || starts_with (lit "https://") s
        then None
        else Some MediaFileStorageError
    | _ => Some AttributeError
    end.

Definition image_urls : list str :=
  [lit "https://a"; lit "https://b"; lit "https://c"; lit "https://d"].

(** An image without url. *)
Definition image_no_url : dict :=
  <[lit "caption" := JStr (lit "The Moon")]> ∅.
(** ** Facts on [strip] *)

Lemma lstrip_starts_clean (s : str) : starts_clean (lstrip s).
Proof.
  induction s as [|c r IH]; simpl; [exact I|].
  destruct (isspace c) eqn:E; [exact IH | simpl; exact E].
Qed.

Lemma lstrip_clean_id (s : str) : starts_clean s -> lstrip s = s.
Proof.
  destruct s as [|c r]; simpl; [reflexivity|].
  intros ->. reflexivity.
Qed.

Lemma lstrip_split (s : str) :
  exists pre, s = pre ++ lstrip s /\ forallb isspace pre = true.
Proof.
  induction s as [|c r [pre [Hs Hp]]]; simpl.
  - exists []. split; reflexivity.
  - destruct (isspace c) eqn:E.
    + exists (c :: pre). simpl. rewrite E, Hp. split; [congruence | reflexivity].
    + exists []. split; reflexivity.
Qed.

Lemma forallb_rev_true {A} (f : A -> bool) (l : list A) :
  forallb f l = true -> forallb f (rev l) = true.
Proof.
  rewrite !forallb_forall. intros H x Hx. apply H. apply in_rev. exact Hx.
Qed.

Lemma rstrip_split (s : str) :
  exists post, s = rstrip s ++ post /\ forallb isspace post = true.
Proof.
  unfold rstrip. destruct (lstrip_split (rev s)) as [pre [Hs Hp]].
  exists (rev pre). split.
  - rewrite <- rev_app_distr, <- Hs, rev_involutive. reflexivity.
  - apply forallb_rev_true. exact Hp.
Qed.

Lemma rstrip_ends_clean (s : str) : ends_clean (rstrip s).
Proof.
  unfold ends_clean, rstrip. rewrite rev_involutive. apply lstrip_starts_clean.
Qed.

Lemma rstrip_clean_id (s : str) : ends_clean s -> rstrip s = s.
Proof.
  unfold ends_clean, rstrip. intros H.
  rewrite (lstrip_clean_id _ H). apply rev_involutive.
Qed.

Lemma rstrip_keeps_start (s : str) : starts_clean s -> starts_clean (rstrip s).
Proof.
  intros H. destruct (rstrip_split s) as [post [Hs _]].
  destruct (rstrip s) as [|c r]; [exact I|].
  rewrite Hs in H. exact H.
Qed.

Lemma strip_starts_clean (s : str) : starts_clean (strip s).
Proof. apply rstrip_keeps_start, lstrip_starts_clean. Qed.

Lemma strip_ends_clean (s : str) : ends_clean (strip s).
Proof. apply rstrip_ends_clean. Qed.

Lemma strip_clean_id (s : str) : starts_clean s -> ends_clean s -> strip s = s.
Proof.
  intros Hs He. unfold strip. rewrite (lstrip_clean_id _ Hs).
  apply rstrip_clean_id. exact He.
Qed.

Lemma strip_idempotent (s : str) : strip (strip s) = strip s.
Proof. apply strip_clean_id; [apply strip_starts_clean | apply strip_ends_clean]. Qed.

Lemma strip_trimmed_of (s : str) : trimmed_of s (strip s).
Proof.
  split; [|split; [apply strip_starts_clean | apply strip_ends_clean]].
  destruct (lstrip_split s) as [pre [Hs Hp]].
  destruct (rstrip_split (lstrip s)) as [post [Ht Hq]].
  exists pre, post. split; [|split; assumption].
  unfold strip. rewrite <- Ht. exact Hs.
Qed.

(** Trimming is determined by [trimmed_of]. *)
Lemma trimmed_of_strip (s t : str) : trimmed_of s t -> strip s = t.
Proof.
  intros [[pre [post [Hs [Hp Hq]]]] [Hc He]]. subst s.
  assert (L : forall p u, forallb isspace p = true -> starts_clean u ->
                          lstrip (p ++ u) = u).
  { induction p as [|c p IH]; simpl; intros u Hf Hu.
    - apply lstrip_clean_id. exact Hu.
    - apply andb_true_iff in Hf as [-> Hf]. apply IH; assumption. }
  destruct t as [|c t].
  - simpl. unfold strip.
    assert (E : lstrip (pre ++ post) = []).
    { rewrite <- (app_nil_r (pre ++ post)). apply L; [|exact I].
      rewrite forallb_app, Hp, Hq. reflexivity. }
    rewrite E. reflexivity.
  - unfold strip. rewrite (L pre _ Hp) by exact Hc.
    unfold rstrip. rewrite rev_app_distr.
    rewrite (L (rev post) (rev (c :: t))).
    + apply rev_involutive.
    + apply forallb_rev_true. exact Hq.
    + exact He.
Qed.

Example lit_cross : lit "❌" = [10060].
Proof. reflexivity. Qed.

Example lit_brain : lit "🧠" = [129504].
Proof. reflexivity. Qed.

Example strip_moon : strip (lit " 1969 ") = lit "1969".
Proof. reflexivity. Qed.

(** ** The monad *)

Lemma bind_ret_l {A B} (a : A) (k : A -> M B) : bind (ret a) k = k a.
Proof. unfold bind, ret. destruct (k a). reflexivity. Qed.

Lemma bind_raise {A B} (e : exn) (k : A -> M B) : bind (raise e) k = raise e.
Proof. reflexivity. Qed.

Lemma bind_emit {B} (ev : event) (k : unit -> M B) :
  bind (emit ev) k = (ev :: fst (k tt), snd (k tt)).
Proof. unfold bind, emit. destruct (k tt). reflexivity. Qed.

(** ** Dictionary keys *)

Ltac keys_differ := let H := fresh in intro H; vm_compute in H; discriminate H.

Lemma answer_not_results : lit "answer" <> lit "results".
Proof. keys_differ. Qed.

Lemma answer_not_images : lit "answer" <> lit "images".
Proof. keys_differ. Qed.

Lemma results_not_images : lit "results" <> lit "images".
Proof. keys_differ. Qed.

(** ** [normalize], field by field *)

Lemma get_insert_eq (d : dict) (k : str) (v : json) : get (<[k := v]> d) k = v.
Proof. unfold get. rewrite lookup_insert_eq. reflexivity. Qed.

Lemma get_insert_ne (d : dict) (k k' : str) (v : json) :
  k <> k' -> get (<[k := v]> d) k' = get d k'.
Proof. intros H. unfold get. rewrite lookup_insert_ne by exact H. reflexivity. Qed.

Lemma is_list_lookup (d : dict) (k : str) :
  is_list (get d k) = true -> d !! k = Some (get d k).
Proof.
  unfold get. destruct (d !! k) as [v|]; [reflexivity | discriminate].
Qed.

Lemma normalize_lookup_answer (d : dict) :
  normalize d !! lit "answer" = Some (normalized_answer d).
Proof.
  unfold normalize, normalized_answer.
  set (d1 := match get d (lit "answer") with
             | JStr s => <[lit "answer" := JStr (strip s)]> d
             | _ => <[lit "answer" := JStr []]> d
             end).
  assert (H1 : d1 !! lit "answer"
               = Some match get d (lit "answer") with
                      | JStr s => JStr (strip s)
                      | _ => JStr []
                      end).
  { subst d1. destruct (get d (lit "answer")); apply lookup_insert_eq. }
  destruct (negb (is_list (get d1 (lit "results"))));
    destruct (negb (is_list (get _ (lit "images"))));
    rewrite ?(lookup_insert_ne _ (lit "images") (lit "answer"))
      by (apply not_eq_sym, answer_not_images);
    rewrite ?(lookup_insert_ne _ (lit "results") (lit "answer"))
      by (apply not_eq_sym, answer_not_results);
    exact H1.
Qed.

Lemma normalize_answer_step (d : dict) :
  match get d (lit "answer") with
  | JStr s => <[lit "answer" := JStr (strip s)]> d
  | _ => <[lit "answer" := JStr []]> d
  end = <[lit "answer" := normalized_answer d]> d.
Proof. unfold normalized_answer. destruct (get d (lit "answer")); reflexivity. Qed.

Lemma normalize_list_step (d : dict) (k : str) :
  (if negb (is_list (get d k)) then <[k := JList []]> d else d)
  = <[k := normalized_list d k]> d.
Proof.
  unfold normalized_list. destruct (is_list (get d k)) eqn:E; simpl.
  - symmetry. apply insert_id. apply is_list_lookup. exact E.
  - reflexivity.
Qed.

Lemma normalized_list_insert_ne (d : dict) (k k' : str) (v : json) :
  k <> k' -> normalized_list (<[k := v]> d) k' = normalized_list d k'.
Proof.
  intros H. unfold normalized_list. rewrite (get_insert_ne _ _ _ _ H). reflexivity.
Qed.

(** The closed form of [normalize]: three assignments. *)
Lemma normalize_eq (d : dict) :
  normalize d
  = <[lit "images" := normalized_list d (lit "images")]>
      (<[lit "results" := normalized_list d (lit "results")]>
         (<[lit "answer" := normalized_answer d]> d)).
Proof.
  unfold normalize. rewrite normalize_answer_step.
  rewrite !normalize_list_step.
  rewrite (normalized_list_insert_ne _ _ _ _ results_not_images).
  rewrite !(normalized_list_insert_ne _ _ _ _ answer_not_results).
  rewrite (normalized_list_insert_ne _ _ _ _ answer_not_images).
  reflexivity.
Qed.

Lemma normalize_lookup_results (d : dict) :
  normalize d !! lit "results" = Some (normalized_list d (lit "results")).
Proof.
  rewrite normalize_eq.
  rewrite lookup_insert_ne by (apply not_eq_sym, results_not_images).
  apply lookup_insert_eq.
Qed.

Lemma normalize_lookup_images (d : dict) :
  normalize d !! lit "images" = Some (normalized_list d (lit "images")).
Proof. rewrite normalize_eq. apply lookup_insert_eq. Qed.

Lemma normalize_lookup_other (d : dict) (k : str) :
  k <> lit "answer" -> k <> lit "results" -> k <> lit "images" ->
  normalize d !! k = d !! k.
Proof.
  intros Ha Hr Hi. rewrite normalize_eq.
  rewrite !lookup_insert_ne by (apply not_eq_sym; assumption).
  reflexivity.
Qed.

Lemma normalized_answer_idem (d : dict) (d' : dict) :
  get d' (lit "answer") = normalized_answer d ->
  normalized_answer d' = normalized_answer d.
Proof.
  intros H. unfold normalized_answer at 1. rewrite H.
  unfold normalized_answer. destruct (get d (lit "answer")); try reflexivity.
  rewrite strip_idempotent. reflexivity.
Qed.

Lemma normalized_list_idem (d d' : dict) (k : str) :
  get d' k = normalized_list d k ->
  normalized_list d' k = normalized_list d k.
Proof.
  intros H. unfold normalized_list at 1. rewrite H.
  unfold normalized_list. destruct (is_list (get d k)) eqn:E.
  - rewrite E. reflexivity.
  - reflexivity.
Qed.

Lemma get_lookup (d : dict) (k : str) (v : json) :
  d !! k = Some v -> get d k = v.
Proof. unfold get. intros ->. reflexivity. Qed.

(** ** [tavily_search], case by case *)

Section ClientFacts.

Variable key : option str.
Variable net : Network.
Variable query : str.
Variable max_results : Z.

Let payload := payload_of (getenv_value key) query max_results.
Let post := HttpPost TAVILY_URL payload 20.

Lemma tavily_search_no_key :
  truthy (getenv_value key) = false ->
  tavily_search key net query max_results
  = ([StError missing_key_message], Return None).
Proof. intros H. unfold tavily_search. rewrite H. reflexivity. Qed.

Ltac run_search Hk Hn :=
  unfold tavily_search, requests_post, raise_for_status, response_json;
  rewrite Hk; simpl; fold payload; rewrite Hn; simpl.

Lemma tavily_search_post_raises (e : request_exception) :
  truthy (getenv_value key) = true ->
  net TAVILY_URL payload 20%Z = PostRaises e ->
  tavily_search key net query max_results
  = ([post; StError (api_error_message e)], Return None).
Proof. intros Hk Hn. run_search Hk Hn. reflexivity. Qed.

Lemma tavily_search_error_status (r : Response) :
  truthy (getenv_value key) = true ->
  net TAVILY_URL payload 20%Z = PostReturns r ->
  error_status (status_code r) = true ->
  tavily_search key net query max_results
  = ([post; StError (api_error_message (HTTPError r))], Return None).
Proof. intros Hk Hn Hs. run_search Hk Hn. rewrite Hs. reflexivity. Qed.

Lemma tavily_search_not_json (r : Response) :
  truthy (getenv_value key) = true ->
  net TAVILY_URL payload 20%Z = PostReturns r ->
  error_status (status_code r) = false ->
  body_json r = None ->
  tavily_search key net query max_results
  = ([post; StError (api_error_message (JSONDecodeError r))], Return None).
Proof.
  intros Hk Hn Hs Hb. run_search Hk Hn. rewrite Hs. simpl. rewrite Hb.
  reflexivity.
Qed.

Lemma tavily_search_body (r : Response) (v : json) :
  truthy (getenv_value key) = true ->
  net TAVILY_URL payload 20%Z = PostReturns r ->
  error_status (status_code r) = false ->
  body_json r = Some v ->
  tavily_search key net query max_results
  = ([post],
     match v with
     | JDict d => Return (Some (normalize d))
     | _ => Raise AttributeError
     end).
Proof.
  intros Hk Hn Hs Hb. run_search Hk Hn. rewrite Hs. simpl. rewrite Hb.
  destruct v; reflexivity.
Qed.

Lemma tavily_search_success (d : dict) :
  provider_returns key net query max_results (JDict d) ->
  tavily_search key net query max_results
  = ([post], Return (Some (normalize d))).
Proof.
  intros [Hk [r [Hn [Hs Hb]]]].
  apply (tavily_search_body r (JDict d) Hk Hn Hs Hb).
Qed.

End ClientFacts.

(** ** The Sources tab, item by item *)

Section SourcesFacts.

Variable datetime : Type.
Variable strptime : str -> str -> option datetime.
Variable strftime : datetime -> str -> option str.

Lemma reformat_attempt_silent (pd : json) :
  trace (reformat_attempt datetime strptime strftime pd) = [].
Proof.
  unfold reformat_attempt, datetime_strptime, datetime_strftime.
  destruct pd; try reflexivity.
  destruct (strptime s date_format_in) as [date_obj|]; [|reflexivity].
  simpl. destruct (strftime date_obj date_format_out); reflexivity.
Qed.

(** The reformatting of the date never raises and shows nothing. *)
Lemma reformat_date_returns (pd : json) :
  reformat_date datetime strptime strftime pd
  = ([], Return match result (reformat_attempt datetime strptime strftime pd) with
                | Return v => if truthy pd then v else pd
                | Raise _ => pd
                end).
Proof.
  unfold reformat_date. pose proof (reformat_attempt_silent pd) as Ht.
  destruct (reformat_attempt datetime strptime strftime pd) as [t [v|e]];
    unfold trace in Ht; simpl in Ht; subst t; simpl;
    destruct (truthy pd); reflexivity.
Qed.

Lemma render_source_dict (o : dict) :
  render_source datetime strptime strftime (JDict o)
  = (published_date <-
       reformat_date datetime strptime strftime
         (get_default o (lit "published_date") (JStr [])) ;;
     st_markdown
       (source_title (get_default o (lit "title") (JStr (lit "Untitled")))
          (get_default o (lit "url") (JStr (lit "#")))) false ;;
     show_published_date published_date ;;
     write_content (get_default o (lit "content") (JStr [])) ;;
     st_markdown [Lit (lit "---")] false).
Proof. unfold render_source, attr_get. rewrite !bind_ret_l. reflexivity. Qed.

End SourcesFacts.

Lemma write_content_absent : write_content (JStr []) = ret tt.
Proof. reflexivity. Qed.

Lemma write_content_str (s : str) :
  write_content (JStr s)
  = match s with
    | [] => ret tt
    | _ => ([StWrite (JStr (take 350 s ++ lit "..."))], Return tt)
    end.
Proof. destruct s; reflexivity. Qed.

Lemma write_content_result (content : json) :
  is_str content = true \/ truthy content = false ->
  result (write_content content) = Return tt.
Proof.
  intros [H|H].
  - destruct content; try discriminate H. rewrite write_content_str.
    destruct s; reflexivity.
  - unfold write_content. rewrite H. reflexivity.
Qed.

(** ** Truthiness of dictionaries *)

Lemma dict_truthy (d : dict) (k : str) (v : json) :
  d !! k = Some v -> truthy (JDict d) = true.
Proof.
  intros H. simpl. destruct (size d) eqn:E; [|reflexivity].
  apply map_size_empty_iff in E. subst d. rewrite lookup_empty in H.
  discriminate H.
Qed.

Lemma normalize_truthy (d : dict) : data_falsy (Some (normalize d)) = false.
Proof.
  unfold data_falsy.
  rewrite (dict_truthy _ _ _ (normalize_lookup_answer d)). reflexivity.
Qed.

Lemma bind_pure {A B} (a : A) (k : A -> M B) : bind ([], Return a) k = k a.
Proof. apply bind_ret_l. Qed.

Lemma show_published_date_eq (v : json) :
  show_published_date v
  = (if truthy v then [StMarkdown (source_time v) true] else [], Return tt).
Proof. unfold show_published_date. destruct (truthy v); reflexivity. Qed.

Section SourceShape.

Variable datetime : Type.
Variable strptime : str -> str -> option datetime.
Variable strftime : datetime -> str -> option str.

(** One item of the Sources tab: its title, its date when there is one,
    its content, and the rule; the outcome is that of writing the
    content. *)
Lemma render_source_shape (o : dict) :
  render_source datetime strptime strftime (JDict o)
  = (StMarkdown
       (source_title (get_default o (lit "title") (JStr (lit "Untitled")))
          (get_default o (lit "url") (JStr (lit "#")))) false
       :: trace (show_published_date (shown_date datetime strptime strftime o))
       ++ trace (write_content (get_default o (lit "content") (JStr [])))
       ++ match result (write_content (get_default o (lit "content") (JStr [])))
          with
          | Return _ => [StMarkdown [Lit (lit "---")] false]
          | Raise _ => []
          end,
     result (write_content (get_default o (lit "content") (JStr [])))).
Proof.
  rewrite render_source_dict, reformat_date_returns, bind_pure.
  fold (shown_date datetime strptime strftime o). unfold st_markdown. rewrite bind_emit.
  rewrite show_published_date_eq.
  destruct (write_content (get_default o (lit "content") (JStr [])))
    as [t [[]|e]]; destruct (truthy (shown_date datetime strptime strftime o)); simpl;
    rewrite ?app_nil_r; reflexivity.
Qed.

End SourceShape.

(** ** The Images tab, image by image *)

Lemma st_image_shown (image_error : Images) (v : json) (w : bool) :
  displays image_error v = true ->
  st_image image_error v w = ([StImage v w], Return tt).
Proof.
  unfold displays, st_image. destruct v; try discriminate;
    destruct (image_error _); try discriminate; reflexivity.
Qed.

Lemma st_image_raises (image_error : Images) (v : json) (w : bool) :
  displays image_error v = false ->
  exists e, st_image image_error v w = ([], Raise e).
Proof.
  unfold displays, st_image. destruct v; try (eexists; reflexivity);
    destruct (image_error _); try discriminate; eexists; reflexivity.
Qed.

Lemma render_image_dict (image_error : Images) (o : dict) :
  displays image_error (get o (lit "url")) = true ->
  render_image image_error (JDict o)
  = (StImage (get o (lit "url")) true
       :: (if truthy (get o (lit "source_url"))
           then [StMarkdown (image_source_link (get o (lit "source_url"))) true]
           else [])
       ++ (if truthy (get o (lit "caption"))
           then [StMarkdown (image_caption (get o (lit "caption"))) true]
           else []),
     Return tt).
Proof.
  intros Hd. unfold render_image. rewrite (st_image_shown _ _ _ Hd).
  unfold getitem, get.
  destruct (o !! lit "source_url") as [s|]; destruct (o !! lit "caption") as [c|];
    simpl; try destruct (truthy s); try destruct (truthy c); reflexivity.
Qed.

Lemma render_image_raises (image_error : Images) (img : json) :
  displayable image_error img = false ->
  exists e, render_image image_error img = ([], Raise e).
Proof.
  intros Hd. destruct img as [| | | |s| |o]; try discriminate Hd.
  - apply st_image_raises. exact Hd.
  - unfold render_image.
    destruct (st_image_raises image_error _ true Hd) as [e ->].
    exists e. reflexivity.
Qed.

(** ** The Results tab on a normalized answer *)

Lemma normalized_answer_str (d : dict) : exists s, normalized_answer d = JStr s.
Proof. unfold normalized_answer. destruct (get d (lit "answer")); eauto. Qed.

Lemma normalized_list_list (d : dict) (k : str) :
  exists l, normalized_list d k = JList l.
Proof.
  unfold normalized_list. destruct (get d k); simpl; eauto.
Qed.

Lemma tab1_cases (data : dict) (s : str) (l : list json) :
  data !! lit "answer" = Some (JStr s) ->
  data !! lit "results" = Some (JList l) ->
  tab1 (Some data)
  = match s, l with
    | _ :: _, _ => ([StMarkdown (answer_box (JStr s)) true], Return tt)
    | [], [] => ([StWarning no_answer_warning], Return tt)
    | [], JDict o :: _ =>
        if truthy (get_default o (lit "content") (JStr []))
        then ([StMarkdown
                 (answer_box (get_default o (lit "content") (JStr []))) true],
              Return tt)
        else ([StWarning no_answer_warning], Return tt)
    | [], _ :: _ => ([], Raise AttributeError)
    end.
Proof.
  intros Ha Hr. unfold tab1, data_falsy.
  rewrite (dict_truthy _ _ _ Ha). cbn [negb].
  rewrite (get_lookup _ _ _ Ha), (get_lookup _ _ _ Hr).
  unfold getitem. rewrite Hr.
  destruct s as [|c s]; [|reflexivity].
  destruct l as [|first rest]; [reflexivity|].
  destruct first as [| | | | | |o]; try reflexivity.
  simpl. destruct (truthy (get_default o (lit "content") (JStr []))); reflexivity.
Qed.

(** ** Scenarios *)

(** The provider answers [{"answer": null, "results": "not-a-list"}]. *)
Example malformed_body_normalized :
  normalize body_malformed
  = <[lit "answer" := JStr []]>
      (<[lit "results" := JList []]> (<[lit "images" := JList []]> ∅)).
Proof. vm_compute. reflexivity. Qed.

(** The provider answers with a JSON array: [data.get] raises an
    [AttributeError], which the [except] clause does not catch. *)
Example array_body_escapes :
  tavily_search key_demo (net_const 200 (Some (JList []))) query_moon
    max_results_default
  = ([HttpPost TAVILY_URL
        (payload_of (getenv_value key_demo) query_moon max_results_default) 20],
     Raise AttributeError).
Proof. reflexivity. Qed.

(** The first result is not an object: the Results tab raises. *)
Example first_result_not_object :
  tab1 (Some (<[lit "answer" := JStr []]>
                (<[lit "results" := JList [JInt 5]]>
                   (<[lit "images" := JList []]> ∅))))
  = ([], Raise AttributeError).
Proof. vm_compute. reflexivity. Qed.

(** ** Traces of composed runs *)

Lemma bind_return {A B} (m : M A) (k : A -> M B) (t : list event) (a : A) :
  m = (t, Return a) -> bind m k = (t ++ trace (k a), result (k a)).
Proof. intros ->. unfold bind, trace, result. destruct (k a). reflexivity. Qed.

Lemma bind_raises {A B} (m : M A) (k : A -> M B) (t : list event) (e : exn) :
  m = (t, Raise e) -> bind m k = (t, Raise e).
Proof. intros ->. reflexivity. Qed.

Section Keeps.

Variable P : event -> bool.

Lemma keeps_ret {A} (a : A) : keeps P (ret a).
Proof. reflexivity. Qed.

Lemma keeps_raise {A} (e : exn) : keeps P (@raise A e).
Proof. reflexivity. Qed.

Lemma keeps_emit (ev : event) : P ev = true -> keeps P (emit ev).
Proof. intros H. unfold keeps. simpl. rewrite H. reflexivity. Qed.

Lemma keeps_bind {A B} (m : M A) (k : A -> M B) :
  keeps P m -> (forall a, keeps P (k a)) -> keeps P (bind m k).
Proof.
  unfold keeps, trace. intros Hm Hk. destruct m as [t [a|e]]; simpl in *.
  - specialize (Hk a). destruct (k a) as [t' r]. simpl in *.
    rewrite forallb_app, Hm, Hk. reflexivity.
  - exact Hm.
Qed.

Lemma keeps_try_except {A} (m : M A) (h : exn -> option (M A)) :
  keeps P m -> (forall e k, h e = Some k -> keeps P k) ->
  keeps P (try_except m h).
Proof.
  unfold keeps, trace. intros Hm Hh. destruct m as [t [a|e]]; simpl in *.
  - exact Hm.
  - destruct (h e) as [k|] eqn:E; [|exact Hm].
    specialize (Hh e k E). destruct k as [t' r]. simpl in *.
    rewrite forallb_app, Hm, Hh. reflexivity.
Qed.

Lemma keeps_for_each {A} (l : list A) (body : A -> M unit) :
  (forall x, keeps P (body x)) -> keeps P (for_each l body).
Proof.
  intros H. induction l as [|x r IH]; simpl.
  - apply keeps_ret.
  - apply keeps_bind; [apply H | intros _; exact IH].
Qed.

Lemma keeps_for_enumerate {A} (i : nat) (l : list A)
    (body : nat -> A -> M unit) :
  (forall i x, keeps P (body i x)) -> keeps P (for_enumerate i l body).
Proof.
  intros H. revert i. induction l as [|x r IH]; intros i; simpl.
  - apply keeps_ret.
  - apply keeps_bind; [apply H | intros _; apply IH].
Qed.

Lemma keeps_in_column {A} (i : nat) (m : M A) :
  (forall ev, P (InColumn i ev) = true) -> keeps P (in_column i m).
Proof.
  intros H. unfold keeps, in_column, trace. simpl.
  induction (fst m) as [|ev t IH]; simpl; [reflexivity|].
  rewrite H, IH. reflexivity.
Qed.

End Keeps.

(** ** The tabs make no request *)

Lemma keeps_not_post_posts {A} (m : M A) :
  keeps not_post m -> posts (trace m) = [].
Proof.
  unfold keeps, posts. induction (trace m) as [|ev t IH]; simpl; [reflexivity|].
  intros H. apply andb_true_iff in H as [H1 H2]. unfold not_post in H1.
  rewrite filter_cons_False; [apply IH, H2|].
  destruct (is_post ev); [discriminate H1 | exact id].
Qed.

Ltac quiet_with known :=
  repeat first
    [ known
    | apply keeps_ret
    | apply keeps_raise
    | apply keeps_emit; reflexivity
    | apply keeps_bind; [|intros ?]
    | apply keeps_for_each; intros ?
    | apply keeps_for_enumerate; intros ? ?
    | apply keeps_in_column; intros ?; reflexivity
    | apply keeps_try_except; [|intros ? ? ?]
    | match goal with
      | H : Some _ = Some _ |- _ => injection H as <-
      | H : None = Some _ |- _ => discriminate H
      | H : match ?x with _ => _ end = Some _ |- _ => destruct x
      | |- keeps _ (if ?b then _ else _) => destruct b
      | |- keeps _ (match ?x with _ => _ end) => destruct x
      end ].

Ltac quiet := quiet_with fail.

Lemma tab1_quiet (data : option dict) : keeps not_post (tab1 data).
Proof.
  unfold tab1, st_info, st_markdown, st_warning, getitem, subscript0, attr_get.
  quiet.
Qed.

Lemma render_source_quiet (datetime : Type)
    (strptime : str -> str -> option datetime)
    (strftime : datetime -> str -> option str) (item : json) :
  keeps not_post (render_source datetime strptime strftime item).
Proof.
  unfold render_source, reformat_date, reformat_attempt, datetime_strptime,
    datetime_strftime, show_published_date, write_content, st_markdown,
    st_write, attr_get, slice_to, add_str.
  quiet.
Qed.

Lemma tab2_quiet (datetime : Type)
    (strptime : str -> str -> option datetime)
    (strftime : datetime -> str -> option str) (data : option dict) :
  keeps not_post (tab2 datetime strptime strftime data).
Proof.
  unfold tab2, st_info, st_markdown, getitem, py_iter.
  quiet_with ltac:(apply render_source_quiet).
Qed.

Lemma render_image_quiet (image_error : Images) (img : json) :
  keeps not_post (render_image image_error img).
Proof.
  unfold render_image, st_image, st_markdown, getitem. quiet.
Qed.

Lemma tab3_quiet (image_error : Images) (data : option dict) :
  keeps not_post (tab3 image_error data).
Proof.
  unfold tab3, st_info, st_markdown, py_iter.
  quiet_with ltac:(apply keeps_in_column; intros ?; reflexivity).
Qed.

(** ** The runs of [tavily_search] *)

Lemma tavily_search_cases (key : option str) (net : Network) (query : str)
    (max_results : Z) :
  (truthy (getenv_value key) = false
   /\ tavily_search key net query max_results
      = ([StError missing_key_message], Return None))
  \/ (truthy (getenv_value key) = true
      /\ exists e,
          tavily_search key net query max_results
          = ([HttpPost TAVILY_URL
                (payload_of (getenv_value key) query max_results) 20;
              StError (api_error_message e)],
             Return None))
  \/ (exists d,
        provider_returns key net query max_results (JDict d)
        /\ tavily_search key net query max_results
           = ([HttpPost TAVILY_URL
                 (payload_of (getenv_value key) query max_results) 20],
              Return (Some (normalize d))))
  \/ (exists v,
        provider_returns key net query max_results v
        /\ (forall d, v <> JDict d)
        /\ tavily_search key net query max_results
           = ([HttpPost TAVILY_URL
                 (payload_of (getenv_value key) query max_results) 20],
              Raise AttributeError)).
Proof.
  destruct (truthy (getenv_value key)) eqn:Hk.
  2:{ left. split; [reflexivity|]. apply tavily_search_no_key. exact Hk. }
  right.
  destruct (net TAVILY_URL (payload_of (getenv_value key) query max_results)
              20%Z) as [e|r] eqn:Hn.
  { left. split; [reflexivity|]. exists e.
    apply tavily_search_post_raises; assumption. }
  destruct (error_status (status_code r)) eqn:Hs.
  { left. split; [reflexivity|]. exists (HTTPError r).
    apply tavily_search_error_status; assumption. }
  destruct (body_json r) as [v|] eqn:Hb.
  2:{ left. split; [reflexivity|]. exists (JSONDecodeError r).
      apply tavily_search_not_json; assumption. }
  right.
  assert (Hp : provider_returns key net query max_results v).
  { split; [exact Hk|]. exists r. repeat split; assumption. }
  pose proof (tavily_search_body key net query max_results r v Hk Hn Hs Hb)
    as E.
  destruct v.
  all: try (right; eexists; split; [exact Hp|]; split;
            [intros d; discriminate | exact E]).
  left. exists d. split; [exact Hp | exact E].
Qed.

(** ** The shape of a normalized answer *)

Lemma normalize_normalized (d : dict) : normalized (normalize d).
Proof.
  split; [|split].
  - destruct (normalized_answer_str d) as [s Hs].
    exists s. split.
    + rewrite normalize_lookup_answer, Hs. reflexivity.
    + unfold normalized_answer in Hs.
      destruct (get d (lit "answer")); inversion Hs; subst;
        try reflexivity. apply strip_idempotent.
  - destruct (normalized_list_list d (lit "results")) as [l Hl].
    exists l. rewrite normalize_lookup_results, Hl. reflexivity.
  - destruct (normalized_list_list d (lit "images")) as [l Hl].
    exists l. rewrite normalize_lookup_images, Hl. reflexivity.
Qed.

Lemma normalized_fixed (d : dict) : normalized d -> normalize d = d.
Proof.
  intros [[s [Ha Hs]] [[l Hr] [l' Hi]]]. rewrite normalize_eq.
  unfold normalized_answer, normalized_list.
  rewrite (get_lookup _ _ _ Ha), (get_lookup _ _ _ Hr), (get_lookup _ _ _ Hi).
  simpl. rewrite Hs.
  rewrite (insert_id d _ _ Ha), (insert_id d _ _ Hr). apply insert_id, Hi.
Qed.

(** ** The page *)

Lemma posts_app (t t' : list event) : posts (t ++ t') = posts t ++ posts t'.
Proof. unfold posts. apply filter_app. Qed.

Lemma posts_bind_quiet {A B} (m : M A) (k : A -> M B) :
  (forall a, keeps not_post (k a)) ->
  posts (trace (bind m k)) = posts (trace m).
Proof.
  intros H. destruct m as [t [a|e]]; [|reflexivity].
  rewrite (bind_return _ k t a eq_refl). unfold trace at 1 3. simpl.
  rewrite posts_app, (keeps_not_post_posts _ (H a)). apply app_nil_r.
Qed.

Lemma tavily_search_posts (key : option str) (net : Network) (query : str)
    (max_results : Z) :
  posts (trace (tavily_search key net query max_results))
  = if truthy (getenv_value key)
    then [HttpPost TAVILY_URL
            (payload_of (getenv_value key) query max_results) 20]
    else [].
Proof.
  destruct (tavily_search_cases key net query max_results)
    as [[Hk E]|[[Hk [e E]]|[[d [[Hk _] E]]|[v [[Hk _] [_ E]]]]]];
    rewrite E, Hk; reflexivity.
Qed.

Section PageFacts.

Variable key : option str.
Variable net : Network.
Variable datetime : Type.
Variable strptime : str -> str -> option datetime.
Variable strftime : datetime -> str -> option str.
Variable image_error : Images.

Lemma tabs_quiet (data : option dict) :
  keeps not_post
    (bind (tab1 data)
       (fun _ => bind (tab2 datetime strptime strftime data)
                   (fun _ => tab3 image_error data))).
Proof.
  apply keeps_bind; [apply tab1_quiet | intros _].
  apply keeps_bind; [apply tab2_quiet | intros _; apply tab3_quiet].
Qed.

Lemma tabs_without_data :
  bind (tab1 None)
    (fun _ =>
       bind (tab2 datetime strptime strftime None)
         (fun _ => tab3 image_error None))
  = (placeholders, Return tt).
Proof. vm_compute. reflexivity. Qed.

Lemma page_searching (search_btn : bool) (query : str) :
  searching search_btn query = true ->
  page key net datetime strptime strftime image_error search_btn query
  = bind (bind (emit spinner)
            (fun _ => tavily_search key net query max_results_default))
      (fun data =>
         bind (tab1 data)
           (fun _ => bind (tab2 datetime strptime strftime data)
                       (fun _ => tab3 image_error data))).
Proof.
  unfold searching, page. intros ->. reflexivity.
Qed.

Lemma page_posts (search_btn : bool) (query : str) :
  posts (trace (page key net datetime strptime strftime image_error
                  search_btn query))
  = if searching search_btn query && truthy (getenv_value key)
    then [HttpPost TAVILY_URL
            (payload_of (getenv_value key) query max_results_default) 20]
    else [].
Proof.
  destruct (searching search_btn query) eqn:Hs.
  - rewrite (page_searching _ _ Hs).
    rewrite (posts_bind_quiet _ _ tabs_quiet).
    rewrite bind_emit. unfold trace at 1. simpl.
    change (posts (spinner :: ?t)) with (posts ([spinner] ++ t)).
    rewrite posts_app. apply tavily_search_posts.
  - unfold page. unfold searching in Hs. rewrite Hs.
    rewrite (posts_bind_quiet _ _ tabs_quiet). reflexivity.
Qed.

End PageFacts.

Lemma strip_all_space (s : str) : forallb isspace s = true -> strip s = [].
Proof.
  intros H. unfold strip.
  assert (E : lstrip s = []).
  { induction s as [|c r IH]; [reflexivity|]. simpl in *.
    apply andb_true_iff in H as [-> H]. apply IH, H. }
  rewrite E. reflexivity.
Qed.

(** ** The Sources tab on a list of results *)

Section SourcesTab.

Variable datetime : Type.
Variable strptime : str -> str -> option datetime.
Variable strftime : datetime -> str -> option str.

Lemma tab2_list (data : dict) (l : list json) :
  data !! lit "results" = Some (JList l) ->
  tab2 datetime strptime strftime (Some data)
  = bind (emit sources_heading)
      (fun _ => for_each l (render_source datetime strptime strftime)).
Proof.
  intros H. unfold tab2, data_falsy. rewrite (dict_truthy _ _ _ H).
  rewrite H. cbn [negb orb]. rewrite bool_decide_eq_true_2 by eauto.
  cbn [negb]. unfold getitem. rewrite H. unfold py_iter.
  rewrite !bind_ret_l. reflexivity.
Qed.

Lemma titles_app (t t' : list event) : titles (t ++ t') = titles t ++ titles t'.
Proof. unfold titles. apply omap_app. Qed.

Lemma titles_show_published_date (v : json) :
  titles (trace (show_published_date v)) = [].
Proof. rewrite show_published_date_eq. destruct (truthy v); reflexivity. Qed.

Lemma titles_write_content (content : json) :
  titles (trace (write_content content)) = [].
Proof.
  unfold write_content. destruct (truthy content); [|reflexivity].
  destruct content; reflexivity.
Qed.

Lemma titles_render_source (o : dict) :
  titles (trace (render_source datetime strptime strftime (JDict o)))
  = [listed_as o].
Proof.
  rewrite render_source_shape. unfold trace at 1. cbn [fst].
  change (titles (?e :: ?t)) with (titles ([e] ++ t)).
  rewrite !titles_app, titles_show_published_date, titles_write_content.
  destruct (result (write_content (get_default o (lit "content") (JStr []))));
    reflexivity.
Qed.

Lemma result_render_source (o : dict) :
  result (render_source datetime strptime strftime (JDict o))
  = result (write_content (get_default o (lit "content") (JStr []))).
Proof. rewrite render_source_shape. reflexivity. Qed.

Lemma for_each_sources (objs : list dict) :
  Forall content_ok objs ->
  result (for_each (map JDict objs) (render_source datetime strptime strftime))
  = Return tt
  /\ titles (trace (for_each (map JDict objs)
                      (render_source datetime strptime strftime)))
     = map listed_as objs.
Proof.
  induction 1 as [|o objs Ho _ [IHr IHt]]; [split; reflexivity|].
  cbn [map for_each].
  pose proof (result_render_source o) as Hr.
  rewrite (write_content_result _ Ho) in Hr.
  destruct (render_source datetime strptime strftime (JDict o)) as [t r] eqn:E.
  unfold result in Hr. simpl in Hr. subst r.
  rewrite (bind_return _ _ t tt eq_refl). split.
  - exact IHr.
  - unfold trace at 1. cbn [fst]. rewrite titles_app, IHt.
    pose proof (titles_render_source o) as Ht. rewrite E in Ht.
    unfold trace in Ht. simpl in Ht. rewrite Ht. reflexivity.
Qed.

End SourcesTab.

(** ** The Images tab on a list of images *)

Section ImagesTab.

Variable image_error : Images.

Lemma result_render_image (img : json) :
  displayable image_error img = true ->
  result (render_image image_error img) = Return tt.
Proof.
  intros Hd. destruct img as [| | | |s| |o]; try reflexivity.
  - unfold render_image. rewrite (st_image_shown _ _ _ Hd). reflexivity.
  - rewrite (render_image_dict _ _ Hd). reflexivity.
Qed.

Lemma result_for_enumerate {A} (i : nat) (l : list A)
    (body : nat -> A -> M unit) :
  (forall i x, In x l -> result (body i x) = Return tt) ->
  result (for_enumerate i l body) = Return tt.
Proof.
  revert i. induction l as [|x r IH]; intros i H; [reflexivity|].
  cbn [for_enumerate]. pose proof (H i x (or_introl eq_refl)) as Hx.
  destruct (body i x) as [t o]. unfold result in Hx. simpl in Hx. subst o.
  rewrite (bind_return _ _ t tt eq_refl). apply IH.
  intros j y Hy. apply H. right. exact Hy.
Qed.

Lemma tab3_list (data : dict) (img : json) (l : list json) :
  data !! lit "images" = Some (JList (img :: l)) ->
  tab3 image_error (Some data)
  = bind (emit images_heading)
      (fun _ =>
         bind (emit (StColumns 3))
           (fun _ =>
              for_enumerate 0 (img :: l)
                (fun i img =>
                   in_column (i mod 3) (render_image image_error img)))).
Proof.
  intros H. unfold tab3, data_falsy. rewrite (dict_truthy _ _ _ H).
  rewrite (get_lookup _ _ _ H). cbn [negb orb truthy].
  unfold get_default. rewrite H. unfold py_iter.
  rewrite !bind_ret_l. reflexivity.
Qed.

Lemma tab3_empty (data : dict) :
  data !! lit "images" = Some (JList []) ->
  tab3 image_error (Some data) = ([StInfo no_images_info], Return tt).
Proof.
  intros H. unfold tab3, data_falsy. rewrite (dict_truthy _ _ _ H).
  rewrite (get_lookup _ _ _ H). cbn [negb orb truthy].
  unfold no_images_info. reflexivity.
Qed.

Lemma for_enumerate_urls (i : nat) (urls : list str) :
  (forall url, In url urls -> displays image_error (JStr url) = true) ->
  for_enumerate i (map JStr urls)
    (fun i img => in_column (i mod 3) (render_image image_error img))
  = (imap (fun j url => InColumn ((i + j) mod 3)%nat (StImage (JStr url) true))
       urls,
     Return tt).
Proof.
  revert i. induction urls as [|u urls IH]; intros i H; [reflexivity|].
  cbn [map for_enumerate].
  assert (E : in_column (i mod 3) (render_image image_error (JStr u))
              = ([InColumn (i mod 3)%nat (StImage (JStr u) true)], Return tt)).
  { unfold render_image.
    rewrite (st_image_shown _ _ _ (H u (or_introl eq_refl))). reflexivity. }
  rewrite (bind_return _ _ _ tt E).
  rewrite IH by (intros url Hu; apply H; right; exact Hu).
  unfold trace, result. cbn [fst snd app].
  rewrite imap_cons, Nat.add_0_r. f_equal. f_equal.
  apply imap_ext. intros j x _. simpl. rewrite Nat.add_succ_r. reflexivity.
Qed.

(** An object without url, or with [null] for url, at the head of the
    images. *)
Lemma tab3_no_url (data : dict) (o : dict) (rest : list json) :
  data !! lit "images" = Some (JList (JDict o :: rest)) ->
  get o (lit "url") = JNull ->
  tab3 image_error (Some data)
  = ([images_heading; StColumns 3], Raise AttributeError).
Proof.
  intros H Hu. rewrite (tab3_list _ _ _ H), !bind_emit.
  cbn [for_enumerate].
  assert (E : in_column (0 mod 3) (render_image image_error (JDict o))
              = ([], Raise AttributeError)).
  { unfold render_image. rewrite Hu. reflexivity. }
  rewrite (bind_raises _ _ _ _ E). reflexivity.
Qed.

End ImagesTab.

Lemma provider_returns_const (k : str) (status : Z) (v : json)
    (query : str) (max_results : Z) :
  k <> [] -> error_status status = false ->
  provider_returns (Some k) (net_const status (Some v)) query max_results v.
Proof.
  intros Hk Hs. split.
  - destruct k; [contradiction | reflexivity].
  - exists (mkResponse status (Some v)). repeat split. exact Hs.
Qed.

(** On a concrete network, [provider_returns] is settled by evaluation. *)
Ltac provider_answers :=
  split; [reflexivity | eexists; split; [reflexivity | split; reflexivity]].

(** ** The answer field *)

(** C1: when the provider's parsed body has a string under ["answer"], the
    result of [tavily_search] has that string under ["answer"] with its
    leading and trailing whitespace removed; in every other case (no
    ["answer"], [null], a number, an object, any value that is not a
    string) it has the empty string there. *)
Theorem answer_trimmed_or_empty (key : option str) (net : Network)
    (query : str) (max_results : Z) (d : dict) :
  provider_returns key net query max_results (JDict d) ->
  exists data,
    result (tavily_search key net query max_results) = Return (Some data)
    /\ (forall s, d !! lit "answer" = Some (JStr s) ->
          data !! lit "answer" = Some (JStr (strip s))
          /\ trimmed_of s (strip s))
    /\ (is_str (get d (lit "answer")) = false ->
          data !! lit "answer" = Some (JStr [])).
Proof.
  intros H. exists (normalize d). split; [|split].
  - rewrite (tavily_search_success _ _ _ _ _ H). reflexivity.
  - intros s Hs. split; [|apply strip_trimmed_of].
    rewrite normalize_lookup_answer. unfold normalized_answer.
    rewrite (get_lookup _ _ _ Hs). reflexivity.
  - intros Hn. rewrite normalize_lookup_answer. unfold normalized_answer.
    destruct (get d (lit "answer")); try reflexivity. discriminate Hn.
Qed.

Lemma answer_trimmed_or_empty_witness :
  exists data,
    result (tavily_search key_demo (net_const 200 (Some (JDict body_moon)))
              query_moon max_results_default) = Return (Some data)
    /\ data !! lit "answer" = Some (JStr (lit "1969")).
Proof.
  destruct (answer_trimmed_or_empty key_demo
              (net_const 200 (Some (JDict body_moon)))
              query_moon max_results_default body_moon) as [data [Hr [Hs _]]].
  - provider_answers.
  - exists data. split; [exact Hr|].
    destruct (Hs (lit " 1969 ")) as [Ha _]; [reflexivity | exact Ha].
Defined.

(** ** The fields that [normalize] does not name *)

(** C9: on a successful response the result of [tavily_search] is the
    parsed object of the provider in which every key other than
    ["answer"], ["results"] and ["images"] holds what it held: the extra
    fields of the provider reach the caller untouched. *)
Theorem other_fields_untouched (key : option str) (net : Network)
    (query : str) (max_results : Z) (d : dict) :
  provider_returns key net query max_results (JDict d) ->
  exists data,
    tavily_search key net query max_results
    = ([HttpPost TAVILY_URL
          (payload_of (getenv_value key) query max_results) 20],
       Return (Some data))
    /\ forall k, k <> lit "answer" -> k <> lit "results" -> k <> lit "images" ->
                 data !! k = d !! k.
Proof.
  intros H. exists (normalize d). split.
  - apply tavily_search_success. exact H.
  - intros k Ha Hr Hi. apply normalize_lookup_other; assumption.
Qed.

Lemma other_fields_untouched_witness :
  exists data,
    result (tavily_search key_demo (net_const 200 (Some (JDict body_moon)))
              query_moon max_results_default) = Return (Some data)
    /\ data !! lit "request_id" = Some (JStr (lit "r-1")).
Proof.
  destruct (other_fields_untouched key_demo
              (net_const 200 (Some (JDict body_moon)))
              query_moon max_results_default body_moon) as [data [Hr Hk]].
  - provider_answers.
  - exists data. split.
    + unfold result. rewrite Hr. reflexivity.
    + rewrite Hk by keys_differ. reflexivity.
Defined.

(** ** Normalizing twice *)

(** C6: [normalize] is idempotent: a result that is the output of the
    normalization is a fixed point of it. *)
Theorem normalize_idempotent (d : dict) : normalize (normalize d) = normalize d.
Proof.
  rewrite (normalize_eq (normalize d)).
  rewrite (normalized_answer_idem d (normalize d)),
    (normalized_list_idem d (normalize d) (lit "results")),
    (normalized_list_idem d (normalize d) (lit "images")).
  - rewrite (insert_id (normalize d)) by apply normalize_lookup_answer.
    rewrite (insert_id (normalize d)) by apply normalize_lookup_results.
    apply insert_id, normalize_lookup_images.
  - apply get_lookup, normalize_lookup_images.
  - apply get_lookup, normalize_lookup_results.
  - apply get_lookup, normalize_lookup_answer.
Qed.

(** ** The missing key *)

(** C4: when [TAVILY_API_KEY] is unset or empty, [tavily_search] reports
    the missing key and returns [None] without any network call; the
    message it reports differs from the message of every network failure,
    however the cause of that failure prints. *)
Theorem missing_key_fails_first (key : option str) (net : Network)
    (query : str) (max_results : Z) :
  key = None \/ key = Some [] ->
  tavily_search key net query max_results
  = ([StError missing_key_message], Return None)
  /\ posts (trace (tavily_search key net query max_results)) = []
  /\ forall (show : frag -> str) (e : request_exception),
       fstring_text show missing_key_message
       <> fstring_text show (api_error_message e).
Proof.
  intros Hk.
  assert (E : tavily_search key net query max_results
              = ([StError missing_key_message], Return None)).
  { apply tavily_search_no_key. destruct Hk as [-> | ->]; reflexivity. }
  split; [exact E|]. split; [rewrite E; reflexivity|].
  intros show e H. vm_compute in H. discriminate H.
Qed.

Lemma missing_key_fails_first_witness :
  tavily_search None (net_const 200 (Some (JDict body_moon)))
    query_moon max_results_default
  = ([StError missing_key_message], Return None)
  /\ tavily_search (Some []) (net_down (Timeout (lit "timed out")))
       query_moon max_results_default
     = ([StError missing_key_message], Return None).
Proof.
  split.
  - apply (missing_key_fails_first None). left. reflexivity.
  - apply (missing_key_fails_first (Some [])). right. reflexivity.
Defined.

(** ** Transport failures *)

(** C5, as stated, fails: a status outside 200-299 is not always reported.
    On a 300 response whose body is a JSON object [raise_for_status] does
    not raise, so [tavily_search] returns the normalized body and reports no
    error. *)
Lemma status_300_counterexample :
  success_status 300 = false
  /\ tavily_search key_demo (net_const 300 (Some (JDict body_moon)))
       query_moon max_results_default
     = ([HttpPost TAVILY_URL
           (payload_of (getenv_value key_demo) query_moon max_results_default)
           20],
        Return (Some (normalize body_moon))).
Proof.
  split; [reflexivity|].
  apply tavily_search_success.
  apply provider_returns_const; [discriminate | reflexivity].
Qed.

(** C5, amended: when the request itself fails (a connection error, a
    timeout, any [RequestException] of [requests.post]) or the response has
    an error status, 400 to 599 (such as 500), [tavily_search] makes its one
    request, reports the Tavily API error that carries the cause, and
    returns [None]; and in no run at all does a [RequestException] escape
    to the caller. *)
Theorem transport_failure_reported (key : option str) (net : Network)
    (query : str) (max_results : Z) :
  truthy (getenv_value key) = true ->
  (forall e,
      net TAVILY_URL (payload_of (getenv_value key) query max_results) 20%Z
      = PostRaises e ->
      tavily_search key net query max_results
      = ([HttpPost TAVILY_URL
            (payload_of (getenv_value key) query max_results) 20;
          StError (api_error_message e)],
         Return None))
  /\ (forall r,
        net TAVILY_URL (payload_of (getenv_value key) query max_results) 20%Z
        = PostReturns r ->
        error_status (status_code r) = true ->
        tavily_search key net query max_results
        = ([HttpPost TAVILY_URL
              (payload_of (getenv_value key) query max_results) 20;
            StError (api_error_message (HTTPError r))],
           Return None))
  /\ (forall e,
        result (tavily_search key net query max_results)
        <> Raise (RequestException e)).
Proof.
  intros Hk. split; [|split].
  - intros e Hn. apply tavily_search_post_raises; assumption.
  - intros r Hn Hs. apply tavily_search_error_status; assumption.
  - intros e.
    destruct (net TAVILY_URL (payload_of (getenv_value key) query max_results)
                20%Z) as [e'|r] eqn:Hn.
    + rewrite (tavily_search_post_raises _ _ _ _ e' Hk Hn). discriminate.
    + destruct (error_status (status_code r)) eqn:Hs.
      * rewrite (tavily_search_error_status _ _ _ _ r Hk Hn Hs). discriminate.
      * destruct (body_json r) as [v|] eqn:Hb.
        -- rewrite (tavily_search_body _ _ _ _ r v Hk Hn Hs Hb).
           destruct v; discriminate.
        -- rewrite (tavily_search_not_json _ _ _ _ r Hk Hn Hs Hb). discriminate.
Qed.

Lemma transport_failure_reported_witness :
  tavily_search key_demo (net_down (Timeout (lit "timed out")))
    query_moon max_results_default
  = ([HttpPost TAVILY_URL
        (payload_of (getenv_value key_demo) query_moon max_results_default) 20;
      StError (api_error_message (Timeout (lit "timed out")))],
     Return None)
  /\ tavily_search key_demo (net_const 500 None) query_moon max_results_default
     = ([HttpPost TAVILY_URL
           (payload_of (getenv_value key_demo) query_moon max_results_default)
           20;
         StError (api_error_message (HTTPError (mkResponse 500 None)))],
        Return None).
Proof.
  split.
  - apply (transport_failure_reported key_demo
             (net_down (Timeout (lit "timed out")))); reflexivity.
  - apply (transport_failure_reported key_demo (net_const 500 None)
             query_moon max_results_default); reflexivity.
Defined.

(** ** The request *)

Lemma payload_dom (key : json) (query : str) (max_results : Z) :
  dom (payload_of key query max_results)
  = list_to_set
      [lit "api_key"; lit "query"; lit "include_answer"; lit "include_images";
       lit "include_raw_content"; lit "max_results"].
Proof.
  unfold payload_of. rewrite !dom_insert_L, dom_empty_L. simpl. reflexivity.
Qed.

(** C7: with a key configured, [tavily_search] with the default
    [max_results] makes exactly one network call, whatever the network
    answers: a POST to https://api.tavily.com/search with a timeout of 20
    seconds, whose JSON body has the key, the query with its leading and
    trailing whitespace removed, [include_answer] and [include_images] true,
    [include_raw_content] false and [max_results] 5, and no other field. *)
Theorem one_post_with_fixed_body (k : str) (net : Network) (query : str) :
  k <> [] ->
  exists payload,
    posts (trace (tavily_search (Some k) net query max_results_default))
    = [HttpPost (lit "https://api.tavily.com/search") payload 20]
    /\ payload !! lit "api_key" = Some (JStr k)
    /\ payload !! lit "query" = Some (JStr (strip query))
    /\ trimmed_of query (strip query)
    /\ payload !! lit "include_answer" = Some (JBool true)
    /\ payload !! lit "include_images" = Some (JBool true)
    /\ payload !! lit "include_raw_content" = Some (JBool false)
    /\ payload !! lit "max_results" = Some (JInt 5)
    /\ dom payload
       = list_to_set
           [lit "api_key"; lit "query"; lit "include_answer";
            lit "include_images"; lit "include_raw_content";
            lit "max_results"].
Proof.
  intros Hne.
  assert (Hk : truthy (getenv_value (Some k)) = true).
  { destruct k; [contradiction | reflexivity]. }
  exists (payload_of (JStr k) query max_results_default).
  split.
  { change (JStr k) with (getenv_value (Some k)).
    destruct (net TAVILY_URL
                (payload_of (getenv_value (Some k)) query max_results_default)
                20%Z) as [e'|r] eqn:Hn.
    - rewrite (tavily_search_post_raises _ _ _ _ e' Hk Hn). reflexivity.
    - destruct (error_status (status_code r)) eqn:Hs.
      + rewrite (tavily_search_error_status _ _ _ _ r Hk Hn Hs). reflexivity.
      + destruct (body_json r) as [v|] eqn:Hb.
        * rewrite (tavily_search_body _ _ _ _ r v Hk Hn Hs Hb). reflexivity.
        * rewrite (tavily_search_not_json _ _ _ _ r Hk Hn Hs Hb). reflexivity. }
  split; [apply lookup_insert_eq|].
  split; [unfold payload_of; rewrite lookup_insert_ne by keys_differ;
          apply lookup_insert_eq|].
  split; [apply strip_trimmed_of|].
  do 4 (split; [unfold payload_of; rewrite !lookup_insert_ne by keys_differ;
                apply lookup_insert_eq|]).
  apply payload_dom.
Qed.

Lemma one_post_with_fixed_body_witness :
  exists payload,
    posts (trace (tavily_search key_demo (net_down (Timeout (lit "timed out")))
                    query_moon max_results_default))
    = [HttpPost (lit "https://api.tavily.com/search") payload 20]
    /\ payload !! lit "api_key" = Some (JStr (lit "tvly-demo"))
    /\ payload !! lit "query" = Some (JStr (lit "moon landing year"))
    /\ payload !! lit "max_results" = Some (JInt 5).
Proof.
  destruct (one_post_with_fixed_body (lit "tvly-demo")
              (net_down (Timeout (lit "timed out"))) query_moon)
    as [payload [Hp [Hk [Hq [_ [_ [_ [_ [Hm _]]]]]]]]]; [discriminate|].
  exists payload. split; [exact Hp|]. split; [exact Hk|].
  split; [exact Hq | exact Hm].
Defined.

(** ** The date of a source *)



(** ** The results *)

(** C2, as stated, fails: [tavily_search] fills in no field of a result
    item.  On the body [{"results": [{}]}] the item comes back as it was,
    without title, url or content. *)
Lemma bare_item_counterexample :
  exists data item,
    result (tavily_search key_demo (net_const 200 (Some (JDict body_bare_item)))
              query_moon max_results_default) = Return (Some data)
    /\ data !! lit "results" = Some (JList [JDict item])
    /\ item !! lit "title" = None
    /\ item !! lit "url" = None
    /\ item !! lit "content" = None.
Proof.
  exists (normalize body_bare_item), ∅. split.
  - rewrite (tavily_search_success key_demo _ query_moon max_results_default
               body_bare_item); [reflexivity|].
    apply provider_returns_const; [discriminate | reflexivity].
  - split; [rewrite normalize_lookup_results; reflexivity|].
    repeat split; apply lookup_empty.
Qed.

(** C2, amended: when ["results"] is missing or is not an array, the result
    of [tavily_search] has the empty list there; otherwise it has the array
    of the provider itself, same length, same order, same items, none of
    them altered.  The defaults of an item are those of the Sources tab:
    when it renders an item, a missing title reads "Untitled", a missing
    url reads "#", and a missing content reads as the empty string, for
    which nothing is written. *)
Theorem results_kept_defaults_on_render (key : option str) (net : Network)
    (query : str) (max_results : Z) (d : dict) :
  provider_returns key net query max_results (JDict d) ->
  exists data,
    result (tavily_search key net query max_results) = Return (Some data)
    /\ (is_list (get d (lit "results")) = false ->
        data !! lit "results" = Some (JList []))
    /\ (forall items,
          d !! lit "results" = Some (JList items) ->
          data !! lit "results" = Some (JList items))
    /\ forall (datetime : Type) (strptime : str -> str -> option datetime)
              (strftime : datetime -> str -> option str) (o : dict),
        (o !! lit "title" = None ->
         exists url rest,
           trace (render_source datetime strptime strftime (JDict o))
           = StMarkdown (source_title (JStr (lit "Untitled")) url) false
               :: rest)
        /\ (o !! lit "url" = None ->
            exists title rest,
              trace (render_source datetime strptime strftime (JDict o))
              = StMarkdown (source_title title (JStr (lit "#"))) false :: rest)
        /\ (o !! lit "content" = None ->
            result (render_source datetime strptime strftime (JDict o))
            = Return tt
            /\ forall v,
                ~ In (StWrite v)
                    (trace (render_source datetime strptime strftime
                              (JDict o)))).
Proof.
  intros H. exists (normalize d). split; [|split; [|split]].
  - rewrite (tavily_search_success _ _ _ _ _ H). reflexivity.
  - intros Hl. rewrite normalize_lookup_results. unfold normalized_list.
    rewrite Hl. reflexivity.
  - intros items Hi. rewrite normalize_lookup_results. unfold normalized_list.
    rewrite (get_lookup _ _ _ Hi). reflexivity.
  - intros datetime strptime strftime o. split; [|split].
    + intros Ht. rewrite render_source_shape. unfold get_default at 1.
      rewrite Ht. simpl. eauto.
    + intros Hu. rewrite render_source_shape. unfold get_default at 2.
      rewrite Hu. simpl. eauto.
    + intros Hc. rewrite render_source_shape.
      assert (E : get_default o (lit "content") (JStr []) = JStr []).
      { unfold get_default. rewrite Hc. reflexivity. }
      rewrite E, write_content_absent. split; [reflexivity|].
      intros v. rewrite show_published_date_eq. simpl.
      destruct (truthy (shown_date datetime strptime strftime o)); simpl;
        intros Hin; repeat (destruct Hin as [Hin|Hin]; [discriminate Hin|]);
        exact Hin.
Qed.

Lemma results_kept_defaults_on_render_witness :
  exists data,
    result (tavily_search key_demo (net_const 200 (Some (JDict body_moon)))
              query_moon max_results_default) = Return (Some data)
    /\ data !! lit "results" = Some (JList [JDict item_apollo]).
Proof.
  destruct (results_kept_defaults_on_render key_demo
              (net_const 200 (Some (JDict body_moon)))
              query_moon max_results_default body_moon)
    as [data [Hr [_ [Hk _]]]].
  - provider_answers.
  - exists data. split; [exact Hr|]. apply Hk. reflexivity.
Defined.

(** ** The images *)

(** C3: when ["images"] is an array, the result of [tavily_search] has that
    array, entry by entry as the provider gave it: an entry that is a plain
    string stays the bare url, an entry that is an object stays that
    object, with its [source_url] and [caption] when it has them and
    without them otherwise.  The Images tab passes a string entry to
    [st.image] and shows nothing else for it; for an object it passes the
    url to [st.image], then shows the source link and the caption that the
    object holds, and neither of them when it holds neither.  When
    [st.image] raises (it has no url, the string is neither a URL nor a
    file), nothing of the entry is shown. *)
Theorem images_kept_as_given (key : option str) (net : Network)
    (query : str) (max_results : Z) (d : dict) (images : list json)
    (image_error : Images) :
  provider_returns key net query max_results (JDict d) ->
  d !! lit "images" = Some (JList images) ->
  exists data,
    result (tavily_search key net query max_results) = Return (Some data)
    /\ data !! lit "images" = Some (JList images)
    /\ (forall url,
          In (JStr url) images ->
          displays image_error (JStr url) = true ->
          render_image image_error (JStr url)
          = ([StImage (JStr url) true], Return tt))
    /\ (forall o,
          In (JDict o) images ->
          displays image_error (get o (lit "url")) = true ->
          render_image image_error (JDict o)
          = (StImage (get o (lit "url")) true
               :: (if truthy (get o (lit "source_url"))
                   then [StMarkdown
                           (image_source_link (get o (lit "source_url"))) true]
                   else [])
               ++ (if truthy (get o (lit "caption"))
                   then [StMarkdown
                           (image_caption (get o (lit "caption"))) true]
                   else []),
             Return tt)
          /\ (o !! lit "source_url" = None -> o !! lit "caption" = None ->
              render_image image_error (JDict o)
              = ([StImage (get o (lit "url")) true], Return tt)))
    /\ (forall img,
          In img images ->
          displayable image_error img = false ->
          exists e, render_image image_error img = ([], Raise e)).
Proof.
  intros H Hi. exists (normalize d). split; [|split; [|split; [|split]]].
  - rewrite (tavily_search_success _ _ _ _ _ H). reflexivity.
  - rewrite normalize_lookup_images. unfold normalized_list.
    rewrite (get_lookup _ _ _ Hi). reflexivity.
  - intros url _ Hd. unfold render_image. apply st_image_shown. exact Hd.
  - intros o _ Hd. split; [apply render_image_dict; exact Hd|].
    intros Hs Hc. rewrite (render_image_dict _ _ Hd). unfold get at 2 4.
    rewrite Hs, Hc. reflexivity.
  - intros img _ Hd. apply render_image_raises. exact Hd.
Qed.

Lemma images_kept_as_given_witness :
  exists data,
    result (tavily_search key_demo (net_const 200 (Some (JDict body_moon)))
              query_moon max_results_default) = Return (Some data)
    /\ data !! lit "images"
       = Some (JList [JStr (lit "https://img1"); JDict image_rich])
    /\ render_image images_no_files (JDict image_rich)
       = ([StImage (JStr (lit "https://img2")) true;
           StMarkdown (image_source_link (JStr (lit "https://src2"))) true],
          Return tt).
Proof.
  destruct (images_kept_as_given key_demo
              (net_const 200 (Some (JDict body_moon)))
              query_moon max_results_default body_moon
              [JStr (lit "https://img1"); JDict image_rich] images_no_files)
    as [data [Hr [Hi [_ [Ho _]]]]].
  - provider_answers.
  - reflexivity.
  - exists data. split; [exact Hr|]. split; [exact Hi|].
    destruct (Ho image_rich) as [Hshown _];
      [right; left; reflexivity | reflexivity |].
    exact Hshown.
Defined.

(** ** The answer shown *)

(** C10: on a normalized result whose answer is the empty string and whose
    results are not empty, the Results tab takes for answer the content of
    the first result, by default the empty string: it shows that content in
    the answer box when it is not empty, and the warning otherwise.  The
    warning is shown only when the answer is empty and there is no result
    or the content of the first one is empty. *)
Theorem first_result_content_as_answer (d : dict) :
  (forall o rest,
      normalize d !! lit "answer" = Some (JStr []) ->
      normalize d !! lit "results" = Some (JList (JDict o :: rest)) ->
      tab1 (Some (normalize d))
      = (if truthy (get_default o (lit "content") (JStr []))
         then [StMarkdown
                 (answer_box (get_default o (lit "content") (JStr []))) true]
         else [StWarning no_answer_warning],
         Return tt)
      /\ forall s,
          get_default o (lit "content") (JStr []) = JStr s ->
          (s = [] <-> tab1 (Some (normalize d))
                      = ([StWarning no_answer_warning], Return tt)))
  /\ (In (StWarning no_answer_warning) (trace (tab1 (Some (normalize d)))) ->
      normalize d !! lit "answer" = Some (JStr [])
      /\ (normalize d !! lit "results" = Some (JList [])
          \/ exists o rest,
              normalize d !! lit "results" = Some (JList (JDict o :: rest))
              /\ truthy (get_default o (lit "content") (JStr [])) = false)).
Proof.
  split.
  - intros o rest Ha Hr. rewrite (tab1_cases _ _ _ Ha Hr).
    split.
    + destruct (truthy (get_default o (lit "content") (JStr []))); reflexivity.
    + intros s Hs. rewrite Hs. destruct s as [|c s]; simpl.
      * split; reflexivity.
      * split; intros E; discriminate E.
  - destruct (normalized_answer_str d) as [s Hs].
    destruct (normalized_list_list d (lit "results")) as [l Hl].
    pose proof (normalize_lookup_answer d) as Ha. rewrite Hs in Ha.
    pose proof (normalize_lookup_results d) as Hr. rewrite Hl in Hr.
    rewrite (tab1_cases _ _ _ Ha Hr), Ha, Hr.
    destruct s as [|c s].
    + destruct l as [|first rest].
      * intros _. split; [reflexivity | left; reflexivity].
      * destruct first as [| | | | | |o]; simpl;
          try (intros []; fail).
        destruct (truthy (get_default o (lit "content") (JStr []))) eqn:E; simpl.
        -- intros [Hin|[]]. discriminate Hin.
        -- intros _. split; [reflexivity|]. right. exists o, rest.
           split; [reflexivity | exact E].
    + simpl. intros [Hin|[]]. discriminate Hin.
Qed.

Lemma first_result_content_as_answer_witness :
  tab1 (Some (normalize data_fallback))
  = ([StMarkdown (answer_box (JStr (lit "Neil Armstrong"))) true], Return tt).
Proof.
  destruct (first_result_content_as_answer data_fallback) as [H _].
  destruct (H (<[lit "content" := JStr (lit "Neil Armstrong")]> ∅) [])
    as [Hshown _]; [reflexivity | reflexivity |].
  exact Hshown.
Defined.

(** * Further properties of the code *)

(** ** [tavily_search]: the runs that the claims leave out *)

(** X1: when the response passes [raise_for_status] and its body is JSON
    but not an object (an array, a string, a number, [null]), the call
    [data.get] raises an [AttributeError] that the [except] clause does not
    catch: it escapes [tavily_search], after the request and without any
    error being reported. *)
Theorem non_object_body_raises (key : option str) (net : Network)
    (query : str) (max_results : Z) (v : json) :
  provider_returns key net query max_results v ->
  (forall d, v <> JDict d) ->
  tavily_search key net query max_results
  = ([HttpPost TAVILY_URL (payload_of (getenv_value key) query max_results) 20],
     Raise AttributeError).
Proof.
  intros [Hk [r [Hn [Hs Hb]]]] Hv.
  rewrite (tavily_search_body _ _ _ _ r v Hk Hn Hs Hb).
  destruct v as [| | | | | |d]; try reflexivity. destruct (Hv d). reflexivity.
Qed.

Lemma non_object_body_raises_witness :
  tavily_search key_demo (net_const 200 (Some (JStr (lit "ok")))) query_moon
    max_results_default
  = ([HttpPost TAVILY_URL
        (payload_of (getenv_value key_demo) query_moon max_results_default) 20],
     Raise AttributeError).
Proof.
  apply (non_object_body_raises key_demo
           (net_const 200 (Some (JStr (lit "ok")))) query_moon
           max_results_default (JStr (lit "ok"))).
  - provider_answers.
  - intros d. discriminate.
Defined.

(** X2: whatever the key, the network and the query, a dictionary that
    [tavily_search] returns has a string without leading or trailing
    whitespace under ["answer"], and lists under ["results"] and
    ["images"]. *)
Theorem returned_data_normalized (key : option str) (net : Network)
    (query : str) (max_results : Z) (data : dict) :
  result (tavily_search key net query max_results) = Return (Some data) ->
  normalized data.
Proof.
  intros H.
  destruct (tavily_search_cases key net query max_results)
    as [[_ E]|[[_ [e E]]|[[d [_ E]]|[v [_ [_ E]]]]]];
    rewrite E in H; try discriminate H.
  injection H as <-. apply normalize_normalized.
Qed.

Lemma returned_data_normalized_witness :
  normalized (normalize body_malformed).
Proof.
  apply (returned_data_normalized key_demo
           (net_const 200 (Some (JDict body_malformed))) query_moon
           max_results_default).
  reflexivity.
Defined.

(** X3: [tavily_search] returns [None] exactly when it has reported an
    error, and then it has reported exactly one; a run that returns a
    dictionary or raises has reported none. *)
Theorem none_iff_error_reported (key : option str) (net : Network)
    (query : str) (max_results : Z) :
  (result (tavily_search key net query max_results) = Return None
   /\ exists msg,
       errors (trace (tavily_search key net query max_results))
       = [StError msg])
  \/ (result (tavily_search key net query max_results) <> Return None
      /\ errors (trace (tavily_search key net query max_results)) = []).
Proof.
  destruct (tavily_search_cases key net query max_results)
    as [[_ E]|[[_ [e E]]|[[d [_ E]]|[v [_ [_ E]]]]]]; rewrite E.
  - left. split; [reflexivity|]. eexists. reflexivity.
  - left. split; [reflexivity|]. eexists. reflexivity.
  - right. split; [discriminate | reflexivity].
  - right. split; [discriminate | reflexivity].
Qed.

(** ** [normalize]: keys and fixed points *)

(** X4: the normalization adds the keys ["answer"], ["results"] and
    ["images"] when they are missing, and neither adds nor removes any
    other key. *)
Theorem normalize_keys (d : dict) :
  dom (normalize d)
  = {[lit "answer"; lit "results"; lit "images"]} ∪ dom d.
Proof.
  rewrite normalize_eq, !dom_insert_L. apply set_eq. intros k.
  rewrite !elem_of_union, !elem_of_singleton. tauto.
Qed.

(** X5: the dictionaries that the normalization leaves unchanged are
    exactly those that have a string without leading or trailing whitespace
    under ["answer"] and lists under ["results"] and ["images"]. *)
Theorem normalize_fixed_points (d : dict) : normalize d = d <-> normalized d.
Proof.
  split.
  - intros H. rewrite <- H. apply normalize_normalized.
  - apply normalized_fixed.
Qed.

(** X6: when ["images"] is missing from the provider's object or is not an
    array, the dictionary that [tavily_search] returns has the empty list
    under ["images"]. *)
Theorem images_default_empty (key : option str) (net : Network)
    (query : str) (max_results : Z) (d : dict) :
  provider_returns key net query max_results (JDict d) ->
  is_list (get d (lit "images")) = false ->
  exists data,
    result (tavily_search key net query max_results) = Return (Some data)
    /\ data !! lit "images" = Some (JList []).
Proof.
  intros H Hl. exists (normalize d). split.
  - rewrite (tavily_search_success _ _ _ _ _ H). reflexivity.
  - rewrite normalize_lookup_images. unfold normalized_list. rewrite Hl.
    reflexivity.
Qed.

Lemma images_default_empty_witness :
  exists data,
    result (tavily_search key_demo
              (net_const 200 (Some (JDict body_malformed))) query_moon
              max_results_default) = Return (Some data)
    /\ data !! lit "images" = Some (JList []).
Proof.
  apply (images_default_empty key_demo
           (net_const 200 (Some (JDict body_malformed))) query_moon
           max_results_default body_malformed).
  - provider_answers.
  - reflexivity.
Defined.

(** ** The page: the search and the tabs together *)

(** X7: when the button was not pressed or the query is empty, the page
    calls nothing: the three tabs show their placeholder messages and the
    run ends normally. *)
Theorem page_without_search (key : option str) (net : Network)
    (datetime : Type) (strptime : str -> str -> option datetime)
    (strftime : datetime -> str -> option str) (image_error : Images)
    (search_btn : bool) (query : str) :
  search_btn = false \/ query = [] ->
  page key net datetime strptime strftime image_error search_btn query
  = (placeholders, Return tt).
Proof.
  intros H. unfold page.
  assert (E : search_btn && truthy (JStr query) = false).
  { destruct H as [-> | ->]; [reflexivity | apply andb_false_r]. }
  rewrite E, bind_ret_l. apply tabs_without_data.
Qed.

Lemma page_without_search_witness :
  page key_demo (net_const 200 (Some (JDict body_moon))) unit strptime_never
    strftime_unit images_no_files true []
  = (placeholders, Return tt).
Proof.
  apply (page_without_search key_demo). right. reflexivity.
Defined.

(** X8: a run of the page makes one request when the button was pressed,
    the query is not empty and the key is configured, and none otherwise;
    the tabs never make one.  The request is the POST of [tavily_search]
    with [max_results] 5. *)
Theorem page_requests (key : option str) (net : Network)
    (datetime : Type) (strptime : str -> str -> option datetime)
    (strftime : datetime -> str -> option str) (image_error : Images)
    (search_btn : bool) (query : str) :
  posts (trace (page key net datetime strptime strftime image_error
                  search_btn query))
  = if searching search_btn query && truthy (getenv_value key)
    then [HttpPost TAVILY_URL
            (payload_of (getenv_value key) query 5) 20]
    else [].
Proof. apply page_posts. Qed.

(** X9: the query is tested before it is stripped: a query that is not
    empty but holds only whitespace is searched for, and the request
    carries the empty string as its query. *)
Theorem blank_query_is_sent (k : str) (net : Network)
    (datetime : Type) (strptime : str -> str -> option datetime)
    (strftime : datetime -> str -> option str) (image_error : Images)
    (query : str) :
  k <> [] -> query <> [] -> forallb isspace query = true ->
  exists payload,
    posts (trace (page (Some k) net datetime strptime strftime image_error true
                    query))
    = [HttpPost TAVILY_URL payload 20]
    /\ payload !! lit "query" = Some (JStr []).
Proof.
  intros Hk Hq Hs.
  exists (payload_of (JStr k) query max_results_default). split.
  - rewrite page_posts.
    assert (E : searching true query = true).
    { destruct query; [contradiction | reflexivity]. }
    assert (E' : truthy (getenv_value (Some k)) = true).
    { destruct k; [contradiction | reflexivity]. }
    rewrite E, E'. reflexivity.
  - unfold payload_of. rewrite lookup_insert_ne by keys_differ.
    rewrite lookup_insert_eq, (strip_all_space _ Hs). reflexivity.
Qed.

Lemma blank_query_is_sent_witness :
  exists payload,
    posts (trace (page key_demo (net_down (Timeout (lit "timed out"))) unit
                    strptime_never strftime_unit images_no_files true
                    query_blank))
    = [HttpPost TAVILY_URL payload 20]
    /\ payload !! lit "query" = Some (JStr []).
Proof.
  apply (blank_query_is_sent (lit "tvly-demo")
           (net_down (Timeout (lit "timed out"))) unit strptime_never
           strftime_unit images_no_files query_blank);
    [discriminate | discriminate | reflexivity].
Defined.

(** X10: when a search returns [None] (the key is missing, the request
    failed), the page shows the spinner and what the search reported, then
    the three placeholder messages, as if nothing had been searched. *)
Theorem failed_search_shows_placeholders (key : option str) (net : Network)
    (datetime : Type) (strptime : str -> str -> option datetime)
    (strftime : datetime -> str -> option str) (image_error : Images)
    (search_btn : bool) (query : str) :
  searching search_btn query = true ->
  result (tavily_search key net query max_results_default) = Return None ->
  page key net datetime strptime strftime image_error search_btn query
  = (spinner :: trace (tavily_search key net query max_results_default)
       ++ placeholders,
     Return tt).
Proof.
  intros Hs Hr. rewrite (page_searching _ _ _ _ _ _ _ _ Hs).
  destruct (tavily_search key net query max_results_default) as [t r].
  unfold result in Hr. simpl in Hr. subst r.
  rewrite bind_emit. unfold trace. simpl fst. simpl snd.
  rewrite (bind_return _ _ (spinner :: t) None eq_refl).
  rewrite tabs_without_data. reflexivity.
Qed.

Lemma failed_search_shows_placeholders_witness :
  page None (net_const 200 (Some (JDict body_moon))) unit strptime_never
    strftime_unit images_no_files true query_moon
  = ([spinner; StError missing_key_message; StInfo no_data_info;
      StInfo no_sources_info; StInfo no_images_info],
     Return tt).
Proof.
  apply (failed_search_shows_placeholders None
           (net_const 200 (Some (JDict body_moon))) unit strptime_never
           strftime_unit images_no_files true query_moon); reflexivity.
Defined.

(** X11: when the search raises, the page stops there: it has shown the
    spinner and what the search did, and renders none of the tabs. *)
Theorem raising_search_stops_page (key : option str) (net : Network)
    (datetime : Type) (strptime : str -> str -> option datetime)
    (strftime : datetime -> str -> option str) (image_error : Images)
    (search_btn : bool) (query : str) (e : exn) :
  searching search_btn query = true ->
  result (tavily_search key net query max_results_default) = Raise e ->
  page key net datetime strptime strftime image_error search_btn query
  = (spinner :: trace (tavily_search key net query max_results_default),
     Raise e).
Proof.
  intros Hs Hr. rewrite (page_searching _ _ _ _ _ _ _ _ Hs).
  destruct (tavily_search key net query max_results_default) as [t r].
  unfold result in Hr. simpl in Hr. subst r.
  rewrite bind_emit. reflexivity.
Qed.

Lemma raising_search_stops_page_witness :
  page key_demo (net_const 200 (Some (JList []))) unit strptime_never
    strftime_unit images_no_files true query_moon
  = ([spinner;
      HttpPost TAVILY_URL
        (payload_of (getenv_value key_demo) query_moon max_results_default) 20],
     Raise AttributeError).
Proof.
  apply (raising_search_stops_page key_demo
           (net_const 200 (Some (JList []))) unit strptime_never
           strftime_unit images_no_files true query_moon AttributeError);
    reflexivity.
Defined.

(** ** The tabs on a normalized answer *)

(** X12: on a normalized answer the Sources tab always opens with its
    heading and never shows the placeholder "No sources yet": the key
    ["results"] is always there.  With no result at all, the heading is all
    that it shows. *)
Theorem sources_tab_always_has_heading (datetime : Type)
    (strptime : str -> str -> option datetime)
    (strftime : datetime -> str -> option str) (d : dict) :
  (exists rest,
      trace (tab2 datetime strptime strftime (Some (normalize d)))
      = sources_heading :: rest)
  /\ (normalize d !! lit "results" = Some (JList []) ->
      tab2 datetime strptime strftime (Some (normalize d))
      = ([sources_heading], Return tt)).
Proof.
  split.
  - destruct (normalized_list_list d (lit "results")) as [l Hl].
    pose proof (normalize_lookup_results d) as Hr. rewrite Hl in Hr.
    rewrite (tab2_list _ _ _ _ _ Hr), bind_emit. eexists. reflexivity.
  - intros Hr. rewrite (tab2_list _ _ _ _ _ Hr). reflexivity.
Qed.

Lemma sources_tab_always_has_heading_witness :
  tab2 unit strptime_never strftime_unit (Some (normalize body_malformed))
  = ([sources_heading], Return tt).
Proof.
  apply (sources_tab_always_has_heading unit strptime_never strftime_unit
           body_malformed).
  vm_compute. reflexivity.
Defined.

(** X13: when every result is an object whose content is missing, empty or
    a string, the Sources tab ends normally and lists every result, in the
    order of the provider, under its title and url, "Untitled" and "#" when
    they are missing. *)
Theorem sources_listed_in_order (datetime : Type)
    (strptime : str -> str -> option datetime)
    (strftime : datetime -> str -> option str)
    (data : dict) (objs : list dict) :
  data !! lit "results" = Some (JList (map JDict objs)) ->
  Forall content_ok objs ->
  result (tab2 datetime strptime strftime (Some data)) = Return tt
  /\ titles (trace (tab2 datetime strptime strftime (Some data)))
     = map listed_as objs.
Proof.
  intros Hr Hc. rewrite (tab2_list _ _ _ _ _ Hr), bind_emit.
  destruct (for_each_sources datetime strptime strftime objs Hc) as [Hres Ht].
  split; [exact Hres|].
  unfold trace at 1. cbn [fst].
  change (titles (sources_heading :: ?t)) with (titles t). exact Ht.
Qed.

Lemma sources_listed_in_order_witness :
  titles (trace (tab2 unit strptime_never strftime_unit
                   (Some (normalize body_moon))))
  = [(JStr (lit "Apollo 11"), JStr (lit "https://x"))].
Proof.
  apply (sources_listed_in_order unit strptime_never strftime_unit
           (normalize body_moon) [item_apollo]).
  - vm_compute. reflexivity.
  - constructor; [|constructor]. left. reflexivity.
Defined.

(** X14: a result whose content is truthy but is not a string (a number,
    a list, an object) makes the Sources tab raise while it renders that
    result: its title is shown, and none of the results after it. *)
Theorem bad_content_stops_sources (datetime : Type)
    (strptime : str -> str -> option datetime)
    (strftime : datetime -> str -> option str)
    (data : dict) (o : dict) (rest : list json) :
  data !! lit "results" = Some (JList (JDict o :: rest)) ->
  truthy (get_default o (lit "content") (JStr [])) = true ->
  is_str (get_default o (lit "content") (JStr [])) = false ->
  (exists e,
      result (tab2 datetime strptime strftime (Some data)) = Raise e)
  /\ titles (trace (tab2 datetime strptime strftime (Some data)))
     = [listed_as o].
Proof.
  intros Hr Ht Hs. rewrite (tab2_list _ _ _ _ _ Hr), bind_emit.
  cbn [for_each].
  assert (Hw : exists e,
             write_content (get_default o (lit "content") (JStr []))
             = ([], Raise e)).
  { unfold write_content. rewrite Ht.
    destruct (get_default o (lit "content") (JStr []));
      try discriminate Hs; eexists; reflexivity. }
  destruct Hw as [e Hw].
  pose proof (render_source_shape datetime strptime strftime o) as E.
  rewrite Hw in E. unfold trace at 2, result in E. cbn [fst snd] in E.
  rewrite (bind_raises _ _ _ e E).
  split; [exists e; reflexivity|].
  unfold trace at 1. cbn [fst].
  change (titles (sources_heading :: ?t)) with (titles t).
  change (titles (?ev :: ?t)) with (titles ([ev] ++ t)).
  rewrite !titles_app, titles_show_published_date. reflexivity.
Qed.

Lemma bad_content_stops_sources_witness :
  titles (trace (tab2 unit strptime_never strftime_unit
                   (Some (<[lit "results" :=
                              JList [JDict item_numeric_content;
                                     JDict item_apollo]]> ∅))))
  = [(JStr (lit "Apollo 11"), JStr (lit "#"))].
Proof.
  apply (bad_content_stops_sources unit strptime_never strftime_unit
           (<[lit "results" :=
                JList [JDict item_numeric_content; JDict item_apollo]]> ∅)
           item_numeric_content [JDict item_apollo]); reflexivity.
Defined.

(** X15: a string content is written cut to its first 350 characters and
    always followed by "...", even when nothing was cut: the text written
    has [min 350 (length s) + 3] characters, and the rule closes the item. *)
Theorem content_written_cut (datetime : Type)
    (strptime : str -> str -> option datetime)
    (strftime : datetime -> str -> option str) (o : dict) (s : str) :
  o !! lit "content" = Some (JStr s) ->
  s <> [] ->
  (exists before,
      trace (render_source datetime strptime strftime (JDict o))
      = before ++ [StWrite (JStr (take 350 s ++ lit "...")); rule])
  /\ length (take 350 s ++ lit "...") = (Nat.min 350 (length s) + 3)%nat
  /\ (length s <= 350 -> take 350 s ++ lit "..." = s ++ lit "...")%nat.
Proof.
  intros Hc Hs. split; [|split].
  - rewrite render_source_shape.
    assert (E : get_default o (lit "content") (JStr []) = JStr s).
    { unfold get_default. rewrite Hc. reflexivity. }
    rewrite E, write_content_str. destruct s as [|c s]; [contradiction|].
    unfold trace at 1 3, result. cbn [fst snd].
    eexists (_ :: trace (show_published_date _)). reflexivity.
  - rewrite length_app, length_take. reflexivity.
  - intros Hl. rewrite take_ge by exact Hl. reflexivity.
Qed.

Lemma content_written_cut_witness :
  exists before,
    trace (render_source unit strptime_never strftime_unit (JDict item_apollo))
    = before ++ [StWrite (JStr (lit "......")); rule].
Proof.
  destruct (content_written_cut unit strptime_never strftime_unit
              item_apollo (lit "...")) as [H _];
    [reflexivity | discriminate | exact H].
Defined.

(** X16: the Images tab lays the images out in three columns, in turn:
    when the images are plain urls that [st.image] shows, it shows its
    heading, makes the three columns and puts the image of rank [i] (from
    0) in column [i mod 3], in the order of the provider, and ends
    normally. *)
Theorem images_in_three_columns (image_error : Images) (data : dict)
    (urls : list str) :
  urls <> [] ->
  (forall url, In url urls -> displays image_error (JStr url) = true) ->
  data !! lit "images" = Some (JList (map JStr urls)) ->
  tab3 image_error (Some data)
  = (images_heading :: StColumns 3
       :: imap (fun i url => InColumn (i mod 3)%nat (StImage (JStr url) true))
            urls,
     Return tt).
Proof.
  intros Hu Hd Hi. destruct urls as [|u urls]; [contradiction|].
  cbn [map] in Hi. rewrite (tab3_list _ _ _ _ Hi), !bind_emit.
  change (JStr u :: map JStr urls) with (map JStr (u :: urls)).
  rewrite (for_enumerate_urls _ _ _ Hd). reflexivity.
Qed.

Lemma images_in_three_columns_witness :
  tab3 images_no_files
    (Some (<[lit "images" := JList (map JStr image_urls)]> ∅))
  = ([images_heading; StColumns 3;
      InColumn 0 (StImage (JStr (lit "https://a")) true);
      InColumn 1 (StImage (JStr (lit "https://b")) true);
      InColumn 2 (StImage (JStr (lit "https://c")) true);
      InColumn 0 (StImage (JStr (lit "https://d")) true)],
     Return tt).
Proof.
  apply (images_in_three_columns images_no_files
           (<[lit "images" := JList (map JStr image_urls)]> ∅) image_urls).
  - discriminate.
  - intros url [<-|[<-|[<-|[<-|[]]]]]; reflexivity.
  - reflexivity.
Defined.

(** X17: on a normalized answer the Images tab can raise only from
    [st.image]: it ends normally when [st.image] shows every string entry
    and the url of every object entry; an entry that is neither a string
    nor an object is skipped; with no image at all the tab shows its
    placeholder message.  It does raise on an object without url, or with
    [null] for url: at the head of the images, after the heading and the
    columns and before any image. *)
Theorem images_tab_outcomes (image_error : Images) (d : dict) :
  (forall images,
      normalize d !! lit "images" = Some (JList images) ->
      (forall img, In img images -> displayable image_error img = true) ->
      result (tab3 image_error (Some (normalize d))) = Return tt)
  /\ (forall i img,
        is_str img = false -> (forall o, img <> JDict o) ->
        in_column i (render_image image_error img) = ([], Return tt))
  /\ (normalize d !! lit "images" = Some (JList []) ->
      tab3 image_error (Some (normalize d))
      = ([StInfo no_images_info], Return tt))
  /\ (forall o rest,
        normalize d !! lit "images" = Some (JList (JDict o :: rest)) ->
        get o (lit "url") = JNull ->
        tab3 image_error (Some (normalize d))
        = ([images_heading; StColumns 3], Raise AttributeError)).
Proof.
  split; [|split; [|split]].
  - intros images Hi Hd. destruct images as [|img l].
    + rewrite (tab3_empty _ _ Hi). reflexivity.
    + rewrite (tab3_list _ _ _ _ Hi), !bind_emit. unfold result at 1.
      cbn [snd]. apply (result_for_enumerate 0 (img :: l)). intros i x Hx.
      unfold in_column, result. cbn [snd].
      apply result_render_image, Hd, Hx.
  - intros i img Hs Ho. destruct img as [| | | | | |o]; try reflexivity.
    + discriminate Hs.
    + destruct (Ho o). reflexivity.
  - apply tab3_empty.
  - intros o rest Hi Hu. apply (tab3_no_url _ _ _ _ Hi Hu).
Qed.

Lemma images_tab_outcomes_witness :
  result (tab3 images_no_files (Some (normalize body_moon))) = Return tt
  /\ tab3 images_no_files
       (Some (normalize (<[lit "images" := JList [JDict image_no_url]]> ∅)))
     = ([images_heading; StColumns 3], Raise AttributeError).
Proof.
  destruct (images_tab_outcomes images_no_files body_moon) as [Hok _].
  destruct (images_tab_outcomes images_no_files
              (<[lit "images" := JList [JDict image_no_url]]> ∅))
    as [_ [_ [_ Hraise]]].
  split.
  - apply (Hok [JStr (lit "https://img1"); JDict image_rich]).
    + vm_compute. reflexivity.
    + intros img [<-|[<-|[]]]; reflexivity.
  - apply (Hraise image_no_url []); vm_compute; reflexivity.
Defined.

(** X18: an item without a published date, or with an empty one, gets no
    date line, and [strptime] has no say in it: the item is its title,
    what the writing of its content shows, and the rule when that writing
    ends normally. *)
Theorem no_date_no_line (datetime : Type)
    (strptime : str -> str -> option datetime)
    (strftime : datetime -> str -> option str) (o : dict) :
  truthy (get_default o (lit "published_date") (JStr [])) = false ->
  render_source datetime strptime strftime (JDict o)
  = (StMarkdown
       (source_title (get_default o (lit "title") (JStr (lit "Untitled")))
          (get_default o (lit "url") (JStr (lit "#")))) false
       :: trace (write_content (get_default o (lit "content") (JStr [])))
       ++ match result (write_content (get_default o (lit "content") (JStr [])))
          with
          | Return _ => [rule]
          | Raise _ => []
          end,
     result (write_content (get_default o (lit "content") (JStr [])))).
Proof.
  intros H. rewrite render_source_shape.
  assert (E : truthy (shown_date datetime strptime strftime o) = false).
  { unfold shown_date. rewrite H.
    destruct (result (reformat_attempt datetime strptime strftime
                        (get_default o (lit "published_date") (JStr []))));
      exact H. }
  rewrite show_published_date_eq, E. reflexivity.
Qed.

Lemma no_date_no_line_witness :
  render_source unit strptime_never strftime_unit (JDict item_apollo)
  = ([StMarkdown
        (source_title (JStr (lit "Apollo 11")) (JStr (lit "https://x"))) false;
      StWrite (JStr (lit "......")); rule],
     Return tt).
Proof.
  apply (no_date_no_line unit strptime_never strftime_unit item_apollo).
  reflexivity.
Defined.

(** X19: on a normalized answer whose answer is not empty, the Results tab
    shows that answer in the answer box and nothing else; the results are
    not looked at, so that even a first result that is not an object does
    no harm. *)
Theorem answer_shown_when_present (d : dict) (s : str) :
  normalize d !! lit "answer" = Some (JStr s) ->
  s <> [] ->
  tab1 (Some (normalize d))
  = ([StMarkdown (answer_box (JStr s)) true], Return tt).
Proof.
  intros Ha Hs.
  destruct (normalized_list_list d (lit "results")) as [l Hl].
  pose proof (normalize_lookup_results d) as Hr. rewrite Hl in Hr.
  rewrite (tab1_cases _ _ _ Ha Hr). destruct s; [contradiction | reflexivity].
Qed.

Lemma answer_shown_when_present_witness :
  tab1 (Some (normalize body_moon))
  = ([StMarkdown (answer_box (JStr (lit "1969"))) true], Return tt).
Proof.
  apply (answer_shown_when_present body_moon (lit "1969"));
    [vm_compute; reflexivity | discriminate].
Defined.

(** X20: on a normalized answer whose answer is empty and whose first
    result is not an object, the Results tab raises an [AttributeError]
    and shows nothing. *)
Theorem first_result_must_be_object (d : dict) (first : json)
    (rest : list json) :
  normalize d !! lit "answer" = Some (JStr []) ->
  normalize d !! lit "results" = Some (JList (first :: rest)) ->
  (forall o, first <> JDict o) ->
  tab1 (Some (normalize d)) = ([], Raise AttributeError).
Proof.
  intros Ha Hr Ho. rewrite (tab1_cases _ _ _ Ha Hr).
  destruct first as [| | | | | |o]; try reflexivity.
  destruct (Ho o). reflexivity.
Qed.

Lemma first_result_must_be_object_witness :
  tab1 (Some (normalize (<[lit "results" := JList [JStr (lit "x")]]> ∅)))
  = ([], Raise AttributeError).
Proof.
  apply (first_result_must_be_object
           (<[lit "results" := JList [JStr (lit "x")]]> ∅)
           (JStr (lit "x")) []);
    [vm_compute; reflexivity | vm_compute; reflexivity | discriminate].
Defined.
